(** * Exploratory data analysis script: synthetic quarterly GDP growth

    A shallow embedding of [Exploratort-Data-Analysis/eda_python.py].  The
    script builds a quarterly date axis with [pd.date_range], draws a noisy
    baseline with [np.random.normal], subtracts a shock over the quarters of
    2008, assembles a date-indexed [DataFrame], prints summary checks and
    draws one chart.

    The pandas, numpy and matplotlib calls are modelled by small functions
    that follow the documented behaviour of the library calls the script
    makes; the script itself is the sequence of its statements in an
    error-and-state monad over the process state (random source, standard
    output, figure, and the module-level variable [df]). *)

From Stdlib Require Import ZArith QArith Qround Qpower Lqa Floats String Ascii DecimalString Lia Bool List.
From stdpp Require Import base list.
Import ListNotations.

Local Open Scope Z_scope.

(** ** Calendar dates and the quarter-start offset *)

Module Calendar.

(** A [pd.Timestamp] at midnight: every timestamp of the script comes
    from a 'YYYY-MM-DD' literal. *)
Record date := mkdate { year : Z; month : Z; day : Z }.

Definition date_eqb (a b : date) : bool :=
  (year a =? year b) && (month a =? month b) && (day a =? day b).

Definition date_ltb (a b : date) : bool :=
  (year a <? year b)
  || ((year a =? year b)
      && ((month a <? month b)
          || ((month a =? month b) && (day a <? day b)))).

Definition date_leb (a b : date) : bool := date_ltb a b || date_eqb a b.

(** [shift_month stamp months day_opt='start']: move by a number of
    months and land on the first day of the month. *)
Definition shift_month (d : date) (months : Z) : date :=
  let dy := (month d + months) / 12 in
  let m := (month d + months) mod 12 in
  if m =? 0 then mkdate (year d + dy - 1) 12 1
  else mkdate (year d + dy) m 1.

(** [QuarterBegin(startingMonth=1)], the offset behind [freq='QS']. *)
Definition startingMonth : Z := 1.

Definition is_on_offset (d : date) : bool :=
  (day d =? 1) && ((month d - startingMonth) mod 3 =? 0).

(** [QuarterBegin(n=1)._apply]: the first quarter start strictly after
    [d]. *)
Definition QuarterBegin_apply (d : date) : date :=
  let months_since := month d mod 3 - startingMonth mod 3 in
  let qtrs :=
    if (months_since <? 0) || ((months_since =? 0) && (day d <? 1))
    then 0 else 1 in
  shift_month d (qtrs * 3 - months_since).

Definition rollforward (d : date) : date :=
  if is_on_offset d then d else QuarterBegin_apply d.

(** The generating loop of [date_range]: [while cur <= end: yield cur;
    cur = offset._apply(cur)].  [fuel] bounds the number of turns. *)
Fixpoint generate_range (fuel : nat) (cur end_ : date) : list date :=
  match fuel with
  | O => []
  | S k =>
      if date_leb cur end_
      then cur :: generate_range k (QuarterBegin_apply cur) end_
      else []
  end.

(** Months since year 0, used only to bound the loop. *)
Definition month_ordinal (d : date) : Z := 12 * year d + month d.

(** [pd.date_range(start=..., end=..., freq='QS')]: the quarter starts
    between [start] and [end_], both ends included. *)
Definition date_range_QS (start end_ : date) : list date :=
  let first := rollforward start in
  generate_range (S (Z.to_nat (month_ordinal end_ - month_ordinal first)))
    first end_.

(** [d + pd.DateOffset(months=k)] for a first-of-month date: the
    calendar notion of "k months later" the axis is checked against. *)
Definition add_months (k : Z) (d : date) : date :=
  let t := 12 * year d + (month d - 1) + k in
  mkdate (t / 12) (t mod 12 + 1) (day d).

(** A calendar date with a month between January and December. *)
Definition valid_month (d : date) : Prop := 1 <= month d <= 12.

End Calendar.

Import Calendar.


(** ** Scalars

    The element type of a numpy array.  The script computes in IEEE 754
    binary64 ([float64]); the array code only adds, subtracts and embeds
    decimal literals, so it is written once over this interface and read
    at [float] for the script. *)

Class Scalar (F : Type) := {
  flit : Q -> F;
  fadd : F -> F -> F;
  fsub : F -> F -> F
}.

Definition float_of_Z (z : Z) : float :=
  match z with
  | Z0 => PrimFloat.zero
  | Zpos p => PrimFloat.of_uint63 (Uint63.of_Z (Zpos p))
  | Zneg p => PrimFloat.opp (PrimFloat.of_uint63 (Uint63.of_Z (Zpos p)))
  end.

(** A decimal literal read as the nearest binary64 number. *)
Definition float_of_Q (q : Q) : float :=
  PrimFloat.div (float_of_Z (Qnum q)) (float_of_Z (Zpos (Qden q))).

#[export] Instance float64 : Scalar float :=
  {| flit := float_of_Q; fadd := PrimFloat.add; fsub := PrimFloat.sub |}.

(** Classes of a binary64 number as its IEEE 754 specification sees it. *)
Definition SF_is_nan (x : spec_float) : bool :=
  match x with S754_nan => true | _ => false end.

Definition SF_is_finite (x : spec_float) : bool :=
  match x with S754_zero _ | S754_finite _ _ _ => true | _ => false end.

(** The exact value of a finite binary64 number, as a rational. *)
Definition SF2Q (x : spec_float) : Q :=
  match x with
  | S754_finite s m e =>
      (inject_Z (if s then Zneg m else Zpos m) * Qpower 2 e)%Q
  | _ => 0%Q
  end.

Definition F2Q (x : float) : Q := SF2Q (Prim2SF x).

(** The numbers from 2 up to but excluding 8: the two binades around
    4.5, on which binary64 subtracts 4.5 without rounding. *)
Definition exact_range (x : float) : bool :=
  PrimFloat.leb 2 x && PrimFloat.ltb x 8.

(** ** Errors *)

Inductive exn := IndexError | ValueError | KeyError | NameError.

Definition result (A : Type) : Type := exn + A.

Definition rbind {A B : Type} (r : result A) (k : A -> result B) : result B :=
  match r with
  | inl e => inl e
  | inr a => k a
  end.

(** ** numpy *)

Module np.

(** [dates == d]: the element-wise comparison mask. *)
Definition eq (a : list date) (d : date) : list bool :=
  map (fun x => date_eqb x d) a.

Fixpoint where_from (i : nat) (mask : list bool) : list nat :=
  match mask with
  | [] => []
  | b :: rest =>
      if b then i :: where_from (S i) rest else where_from (S i) rest
  end.

(** [np.where(mask)[0]]: the positions at which the mask holds. *)
Definition where_ (mask : list bool) : list nat := where_from 0 mask.

(** [a[i]] for [0 <= i]; out of range raises [IndexError]. *)
Definition getitem {A : Type} (a : list A) (i : nat) : result A :=
  match a !! i with
  | Some x => inr x
  | None => inl IndexError
  end.

Section Arrays.
Context {F : Type} `{Scalar F}.

(** [a[start:stop] -= c] for non-negative bounds: in place, on the
    positions of the half-open range that exist. *)
Definition slice_isub (a : list F) (start stop : nat) (c : F) : list F :=
  imap (fun i x =>
          if (start <=? i)%nat && (i <? stop)%nat then fsub x c else x) a.

(** [a + b] on one-dimensional arrays, with broadcasting of a
    one-element operand. *)
Definition add (a b : list F) : result (list F) :=
  if (length a =? length b)%nat then inr (zip_with fadd a b)
  else match a, b with
       | [x], _ => inr (map (fun y => fadd x y) b)
       | _, [y] => inr (map (fun x => fadd x y) a)
       | _, _ => inl ValueError
       end.
End Arrays.

End np.

(** ** pandas *)

Module pd.

Definition to_datetime (y m d : Z) : date := mkdate y m d.

Definition date_range (start end_ : date) : list date :=
  date_range_QS start end_.

Inductive column :=
| DatetimeCol (values : list date)
| Float64Col (values : list float).

Inductive index :=
| RangeIndex (stop : nat)
| DatetimeIndex (values : list date)
| Float64Index (values : list float).

Record DataFrame := mkDataFrame {
  df_index : index;
  df_columns : list (string * column)
}.

Definition column_length (c : column) : nat :=
  match c with
  | DatetimeCol v => length v
  | Float64Col v => length v
  end.

Definition index_length (i : index) : nat :=
  match i with
  | RangeIndex n => n
  | DatetimeIndex v => length v
  | Float64Index v => length v
  end.

(** [pd.DataFrame({...})]: all columns must have one length. *)
Definition DataFrame_of_dict (data : list (string * column))
  : result DataFrame :=
  match data with
  | [] => inr (mkDataFrame (RangeIndex 0) [])
  | (_, c) :: rest =>
      if forallb (fun kc => (column_length (snd kc) =? column_length c)%nat) rest
      then inr (mkDataFrame (RangeIndex (column_length c)) data)
      else inl ValueError
  end.

Fixpoint lookup_column (key : string) (cols : list (string * column))
  : option column :=
  match cols with
  | [] => None
  | (k, c) :: rest => if String.eqb k key then Some c else lookup_column key rest
  end.

Fixpoint drop_column (key : string) (cols : list (string * column))
  : list (string * column) :=
  match cols with
  | [] => []
  | (k, c) :: rest =>
      if String.eqb k key then rest else (k, c) :: drop_column key rest
  end.

(** [df[key]] *)
Definition getitem (d : DataFrame) (key : string) : result column :=
  match lookup_column key (df_columns d) with
  | Some c => inr c
  | None => inl KeyError
  end.

Definition index_of_column (c : column) : index :=
  match c with
  | DatetimeCol v => DatetimeIndex v
  | Float64Col v => Float64Index v
  end.

(** [df.set_index(key)]: a new frame whose index is the column. *)
Definition set_index (d : DataFrame) (key : string) : result DataFrame :=
  rbind (getitem d key) (fun c =>
    inr (mkDataFrame (index_of_column c) (drop_column key (df_columns d)))).

(** [len(df)] *)
Definition len (d : DataFrame) : nat := index_length (df_index d).

(** [isinstance(df.index, pd.DatetimeIndex)] *)
Definition is_DatetimeIndex (i : index) : bool :=
  match i with
  | DatetimeIndex _ => true
  | _ => false
  end.

(** A missing entry of a float column is a NaN; the date columns of
    this model hold no [NaT]. *)
Definition count_null (c : column) : nat :=
  match c with
  | DatetimeCol _ => O
  | Float64Col v => length (List.filter PrimFloat.is_nan v)
  end.

(** [df.isnull().sum().sum()] *)
Definition isnull_sum_sum (d : DataFrame) : nat :=
  list_sum (map (fun kc => count_null (snd kc)) (df_columns d)).

Definition dropna (v : list float) : list float :=
  List.filter (fun x => negb (PrimFloat.is_nan x)) v.

Fixpoint insert_sorted (x : float) (l : list float) : list float :=
  match l with
  | [] => [x]
  | y :: rest =>
      if PrimFloat.leb x y then x :: y :: rest else y :: insert_sorted x rest
  end.

Definition sort (l : list float) : list float :=
  fold_right insert_sorted [] l.

(** The minimum and the maximum of the non-missing values; of two
    values that compare equal (zeros of either sign) the later one is
    kept. *)
Definition fmin (l : list float) : float :=
  match l with
  | [] => PrimFloat.nan
  | x :: rest => fold_left (fun a y => if PrimFloat.leb y a then y else a) rest x
  end.

Definition fmax (l : list float) : float :=
  match l with
  | [] => PrimFloat.nan
  | x :: rest => fold_left (fun a y => if PrimFloat.leb a y then y else a) rest x
  end.

(** numpy's linear interpolation between [a] and [b] at fraction [t]:
    [a + (b - a) * t], and [b - (b - a) * (1 - t)] from [t = 0.5] on. *)
Definition lerp (a b t : float) : float :=
  let diff_b_a := PrimFloat.sub b a in
  if PrimFloat.leb 0.5 t
  then PrimFloat.sub b (PrimFloat.mul diff_b_a (PrimFloat.sub 1 t))
  else PrimFloat.add a (PrimFloat.mul diff_b_a t).

(** [Series.quantile(q, interpolation='linear')] on the non-missing
    values: with [h = (n - 1) * q], [i = floor h] and [j] the next
    position, the value interpolates between [x_i] and [x_j] at the
    fraction [h - i]. *)
Definition quantile (v : list float) (q : Q) : float :=
  let xs := sort v in
  let n := length xs in
  let h := (inject_Z (Z.of_nat (n - 1)) * q)%Q in
  let i := Z.to_nat (Qfloor h) in
  let j := Nat.min (S i) (n - 1) in
  match xs !! i, xs !! j with
  | Some xi, Some xj => lerp xi xj (float_of_Q (h - inject_Z (Qfloor h))%Q)
  | _, _ => PrimFloat.nan
  end.

(** The mean and the sample standard deviation are pandas' own float
    reductions; they are taken as given. *)
Class Reductions := {
  nanmean : list float -> float;
  nanstd : list float -> float
}.

(** The object [Series.describe()] returns: for a float column the
    eight summary entries.  The entries of a datetime summary other
    than its count are not modelled. *)
Inductive summary :=
| NumericSummary (count : nat) (mean std min q25 q50 q75 max : float)
| DatetimeSummary (count : nat).

Definition describe `{Reductions} (c : column) : summary :=
  match c with
  | Float64Col v =>
      let xs := dropna v in
      NumericSummary (length xs) (nanmean xs) (nanstd xs) (fmin xs)
        (quantile xs (1 # 4)) (quantile xs (1 # 2)) (quantile xs (3 # 4))
        (fmax xs)
  | DatetimeCol v => DatetimeSummary (length v)
  end.

End pd.

(** ** matplotlib *)

Module plt.

(** The calls the script makes on the current figure, in order. *)
Inductive call :=
| style_use (name : string)
| figure (width height : Z)
| plot (x : pd.index) (y : pd.column) (label : string)
| axvspan (xmin xmax : date) (label : string)
| axvline (x : date) (label : string)
| title (s : string)
| xlabel (s : string)
| ylabel (s : string)
| legend (loc : string)
| xticks (rotation : Z)
| tight_layout
| show.

End plt.

(** ** The process state and the script monad *)

(** What [print] writes: a line of text, or the rendering of the object
    [describe()] returned (its text layout is not modelled). *)
Inductive output :=
| Text (s : string)
| Summary (d : pd.summary).

(** [rng] is numpy's global random state, seen as the unbounded supply of
    the variates it will hand out; [stdout] and [figure] grow at the end;
    [df] is the module-level variable of that name, unbound at start. *)
Record world := mkworld {
  rng : nat -> float;
  stdout : list output;
  figure : list plt.call;
  df : option pd.DataFrame
}.

Definition M (A : Type) : Type := world -> world * result A.

Definition ret {A : Type} (a : A) : M A := fun w => (w, inr a).

Definition bind {A B : Type} (c : M A) (k : A -> M B) : M B :=
  fun w =>
    match c w with
    | (w', inl e) => (w', inl e)
    | (w', inr a) => k a w'
    end.

#[export] Instance M_ret : MRet M := @ret.
#[export] Instance M_bind : MBind M := fun A B k c => bind c k.

(** An operation that may raise. *)
Definition lift {A : Type} (r : result A) : M A := fun w => (w, r).

Definition print (o : output) : M unit :=
  fun w => (mkworld (rng w) (stdout w ++ [o]) (figure w) (df w), inr tt).

Definition draw (c : plt.call) : M unit :=
  fun w => (mkworld (rng w) (stdout w) (figure w ++ [c]) (df w), inr tt).

Definition assign_df (d : pd.DataFrame) : M unit :=
  fun w => (mkworld (rng w) (stdout w) (figure w) (Some d), inr tt).

Definition read_df : M pd.DataFrame :=
  fun w => (w, match df w with Some d => inr d | None => inl NameError end).

(** [np.random.normal(loc, scale, size)]: the next [size] variates.  The
    law of the variates is not modelled: any sequence of floats may be
    drawn. *)
Definition random_normal (loc scale : float) (size : nat) : M (list float) :=
  fun w =>
    (mkworld (fun k => rng w (size + k)%nat) (stdout w) (figure w) (df w),
     inr (map (rng w) (seq 0 size))).

(** ** The script *)

Definition nl : string := String (ascii_of_nat 10) EmptyString.

(** An f-string field holding an integer. *)
Definition format_int (n : nat) : string :=
  NilZero.string_of_uint (Nat.to_uint n).

(** An f-string field holding a bool. *)
Definition format_bool (b : bool) : string :=
  if b then "True"%string else "False"%string.

Definition dates : list date :=
  pd.date_range (pd.to_datetime 2005 1 1) (pd.to_datetime 2010 12 31).

Definition n_points : nat := length dates.

(** [np.where(axis == d)[0][0]] *)
Definition locate (axis : list date) (d : date) : result nat :=
  np.getitem (np.where_ (np.eq axis d)) 0.

Definition shock_period_start (axis : list date) : result nat :=
  locate axis (pd.to_datetime 2008 1 1).

Definition shock_period_end (axis : list date) : result nat :=
  locate axis (pd.to_datetime 2009 1 1).

Section Series.
Context {F : Type} `{Scalar F}.

(** Lines 24 to 28: the baseline draws after the shock is applied. *)
Definition baseline_growth (axis : list date) (draws : list F)
  : result (list F) :=
  rbind (shock_period_start axis) (fun s =>
  rbind (shock_period_end axis) (fun e =>
  inr (np.slice_isub draws s e (flit (45 # 10))))).

End Series.

(** Section 1 of the script on a given date axis. *)
Definition generator_on (axis : list date) : M unit :=
  print (Text "Generating dummy Quarterly GDP Growth Data...") ;;
  let n := length axis in
  draws ← random_normal 5 0.5 n;
  shocked ← lift (baseline_growth axis draws);
  noise ← random_normal 0 (flit (3 # 10)) n;
  values ← lift (np.add shocked noise);
  frame ← lift (pd.DataFrame_of_dict
                   [("Date"%string, pd.DatetimeCol axis);
                    ("GDP_Growth_Rate"%string, pd.Float64Col values)]);
  frame ← lift (pd.set_index frame "Date");
  assign_df frame ;;
  print (Text ("DataFrame created with " ++ format_int (pd.len frame)
               ++ " quarterly observations.")).

Definition generator : M unit := generator_on dates.

Section Reporting.
Context `{pd.Reductions}.

(** Section 2 of the script. *)
Definition reporter : M unit :=
  print (Text (nl ++ "--- Descriptive Statistics (GDP Growth Rate) ---")) ;;
  frame ← read_df;
  col ← lift (pd.getitem frame "GDP_Growth_Rate");
  print (Summary (pd.describe col)) ;;
  frame ← read_df;
  print (Text (nl ++ "Missing values check: "
               ++ format_int (pd.isnull_sum_sum frame))) ;;
  frame ← read_df;
  print (Text ("Index type check: The data is time-series indexed: "
               ++ format_bool (pd.is_DatetimeIndex (pd.df_index frame)))).

(** Section 3 of the script. *)
Definition renderer : M unit :=
  draw (plt.style_use "seaborn-v0_8-darkgrid") ;;
  draw (plt.figure 12 6) ;;
  frame ← read_df;
  col ← lift (pd.getitem frame "GDP_Growth_Rate");
  draw (plt.plot (pd.df_index frame) col "Quarterly GDP Growth (%)") ;;
  let event_start := pd.to_datetime 2007 12 1 in
  let event_end := pd.to_datetime 2009 6 1 in
  draw (plt.axvspan event_start event_end "Post-Election Crisis Period") ;;
  draw (plt.axvline (pd.to_datetime 2007 12 27) "Election Date (Dec 2007)") ;;
  draw (plt.title "Time Series EDA: Kenya GDP Growth Rate (2005-2010)") ;;
  draw (plt.xlabel "Date (Quarterly)") ;;
  draw (plt.ylabel "GDP Growth Rate (%)") ;;
  draw (plt.legend "lower left") ;;
  draw (plt.xticks 45) ;;
  draw plt.tight_layout ;;
  draw plt.show ;;
  print (Text (nl ++ "EDA complete. The visualization clearly shows the simulated shock and recovery period, ready for deeper statistical modeling in R.")).

(** The three sections in order, on a given date axis; an exception
raised in one section ends the run. *)
Definition script_on (axis : list date) : M unit :=
  generator_on axis ;; reporter ;; renderer.

Definition script : M unit := script_on dates.
End Reporting.

(** ** Quantities the properties are stated with *)

(** [l[s:e]] and the rest of [l]. *)
Definition window {A : Type} (s e : nat) (l : list A) : list A :=
  take (e - s) (drop s l).

Definition outside {A : Type} (s e : nat) (l : list A) : list A :=
  take s l ++ drop e l.

Definition Qsum (l : list Q) : Q := fold_right Qplus 0%Q l.

Definition Qmean (l : list Q) : Q :=
  (Qsum l / inject_Z (Z.of_nat (length l)))%Q.

(** Mean over the shock window minus mean over the other points. *)
Definition shock_gap (s e : nat) (series : list Q) : Q :=
  (Qmean (window s e series) - Qmean (outside s e series))%Q.

(** The shock property as the specification words it: on the baseline
    after the shock, the window mean is 4.5 below the outside mean, give
    or take 1.5.  The means are the exact means of the binary64
    values. *)
Definition shock_property (draws : list float) : Prop :=
  exists s e b,
    shock_period_start dates = inr s
    /\ shock_period_end dates = inr e
    /\ baseline_growth dates draws = inr b
    /\ (- (45 # 10) - (15 # 10) <= shock_gap s e (map F2Q b))%Q
    /\ (shock_gap s e (map F2Q b) <= - (45 # 10) + (15 # 10))%Q.

(** A table with exactly one row. *)
Definition one_row (d : date) (v : float) : pd.DataFrame :=
  pd.mkDataFrame (pd.DatetimeIndex [d])
    [("GDP_Growth_Rate"%string, pd.Float64Col [v])].

(** The variates the two calls of [np.random.normal] receive in a run
    that starts in [w] on an axis of [n] dates. *)
Definition baseline_draws (w : world) (n : nat) : list float :=
  map (rng w) (seq 0 n).

Definition noise_draws (w : world) (n : nat) : list float :=
  map (fun k => rng w (n + k)%nat) (seq 0 n).

(** The standard-output sentence as the specification words it: a run
    writes exactly five things. *)
Definition five_messages `{pd.Reductions} (w : world) : Prop :=
  length (stdout (fst (script w))) = (length (stdout w) + 5)%nat.

(** The one-row scenario as the specification words it: the reporter
    ends normally, the count is 1, no value is missing, and the minimum,
    the maximum and the three percentiles compare equal to the value. *)
Definition one_row_report `{pd.Reductions} (d : date) (v : float) : Prop :=
  forall w : world,
    df w = Some (one_row d v) ->
    snd (reporter w) = inr tt
    /\ exists mean std mn q25 q50 q75 mx : float,
         stdout (fst (reporter w))
         = stdout w
           ++ [Text (nl ++ "--- Descriptive Statistics (GDP Growth Rate) ---");
               Summary (pd.NumericSummary 1 mean std mn q25 q50 q75 mx);
               Text (nl ++ "Missing values check: 0");
               Text "Index type check: The data is time-series indexed: True"]
         /\ PrimFloat.eqb mn v = true
         /\ PrimFloat.eqb q25 v = true
         /\ PrimFloat.eqb q50 v = true
         /\ PrimFloat.eqb q75 v = true
         /\ PrimFloat.eqb mx v = true.

(** The count entry of a printed numeric summary. *)
Definition summary_count (o : option output) : option nat :=
  match o with
  | Some (Summary (pd.NumericSummary n _ _ _ _ _ _ _)) => Some n
  | _ => None
  end.

(** ** Sample inputs *)

Definition fsum (l : list float) : float :=
  fold_left PrimFloat.add l PrimFloat.zero.

Definition float_of_nat (n : nat) : float := float_of_Z (Z.of_nat n).

(** Textbook reductions, to run the reporter on examples. *)
Definition textbook : pd.Reductions :=
  {| pd.nanmean := fun l => PrimFloat.div (fsum l) (float_of_nat (length l));
     pd.nanstd := fun l =>
       let m := PrimFloat.div (fsum l) (float_of_nat (length l)) in
       let sq := map (fun x => PrimFloat.mul (PrimFloat.sub x m)
                                 (PrimFloat.sub x m)) l in
       PrimFloat.sqrt
         (PrimFloat.div (fsum sq) (float_of_nat (length l - 1))) |}.

(** A fresh process whose random source always hands out 5.0. *)
Definition steady : world :=
  mkworld (fun _ => 5%float) [] [] None.

(** Baseline draws of 4.25 outside the shock window and 6 inside it:
    each within two standard deviations of the mean 5. *)
Definition high_window_f64 : list float :=
  replicate 12 4.25%float ++ replicate 4 6%float ++ replicate 8 4.25%float.

(** ** Reading a finished run *)

(** The values of the growth column of the table a run of the generator
    leaves in [df]. *)
Definition growth_column (w : world) : option (list float) :=
  match df (fst (generator w)) with
  | Some frame =>
      match pd.getitem frame "GDP_Growth_Rate" with
      | inr (pd.Float64Col v) => Some v
      | _ => None
      end
  | None => None
  end.

Definition growth_value (w : world) (i : nat) : option float :=
  match growth_column w with
  | Some v => v !! i
  | None => None
  end.

(** The chart of a table: the twelve figure calls of section 3. *)
Definition chart (x : pd.index) (y : pd.column) : list plt.call :=
  [plt.style_use "seaborn-v0_8-darkgrid"; plt.figure 12 6;
   plt.plot x y "Quarterly GDP Growth (%)";
   plt.axvspan (mkdate 2007 12 1) (mkdate 2009 6 1)
     "Post-Election Crisis Period";
   plt.axvline (mkdate 2007 12 27) "Election Date (Dec 2007)";
   plt.title "Time Series EDA: Kenya GDP Growth Rate (2005-2010)";
   plt.xlabel "Date (Quarterly)"; plt.ylabel "GDP Growth Rate (%)";
   plt.legend "lower left"; plt.xticks 45; plt.tight_layout; plt.show].

(** More sample inputs: a random source that differs from [steady] in
    one variate, one that hands out NaN, and a world of each. *)
Definition bumpy : world :=
  mkworld (fun k => if (k =? 3)%nat then 7%float else 5%float) [] [] None.

Definition broken : world :=
  mkworld (fun _ => PrimFloat.nan) [] [] None.

(** An axis that stops in the middle of 2008, and one that runs from
    2007 to 2009. *)
Definition short_axis : list date :=
  pd.date_range (pd.to_datetime 2005 1 1) (pd.to_datetime 2008 6 30).

Definition mid_axis : list date :=
  pd.date_range (pd.to_datetime 2007 1 1) (pd.to_datetime 2009 12 31).

(** A table with the growth column and no row, and a table that lacks
    the growth column. *)
Definition no_rows : pd.DataFrame :=
  pd.mkDataFrame (pd.DatetimeIndex [])
    [("GDP_Growth_Rate"%string, pd.Float64Col [])].

Definition other_column : pd.DataFrame :=
  pd.mkDataFrame (pd.DatetimeIndex [mkdate 2005 1 1])
    [("Inflation"%string, pd.Float64Col [5%float])].

(** * Properties *)

(** ** IEEE 754 facts about binary64

    The primitive operations are related to their specification
    ([SpecFloat]) by the standard library's [FloatAxioms]. *)

Module F64.

Lemma SFcompare_finite_refl (s : bool) (m : positive) (e : Z) :
  SFcompare (S754_finite s m e) (S754_finite s m e) = Some Eq.
Proof.
  assert (He : IntDef.Z.compare e e = Eq) by apply Z.compare_refl.
  assert (Hm : PosDef.Pos.compare_cont Eq m m = Eq)
    by apply Pos.compare_cont_refl.
  simpl. rewrite He, Hm. destruct s; reflexivity.
Qed.

Lemma SFeqb_refl (x : spec_float) : SFeqb x x = negb (SF_is_nan x).
Proof.
  destruct x as [s|s| |s m e]; unfold SFeqb.
  - reflexivity.
  - destruct s; reflexivity.
  - reflexivity.
  - rewrite SFcompare_finite_refl. reflexivity.
Qed.

Lemma is_nan_spec (x : float) : PrimFloat.is_nan x = SF_is_nan (Prim2SF x).
Proof.
  unfold PrimFloat.is_nan. rewrite FloatAxioms.eqb_spec, SFeqb_refl. apply negb_involutive.
Qed.

Lemma Prim2SF_infinity : Prim2SF infinity = S754_infinity false.
Proof. reflexivity. Qed.

Lemma Prim2SF_zero : Prim2SF PrimFloat.zero = S754_zero false.
Proof. reflexivity. Qed.

Lemma is_finite_spec (x : float) :
  PrimFloat.is_finite x = SF_is_finite (Prim2SF x).
Proof.
  unfold PrimFloat.is_finite, PrimFloat.is_infinity.
  rewrite is_nan_spec, FloatAxioms.eqb_spec, abs_spec, Prim2SF_infinity.
  destruct (Prim2SF x) as [s|s| |s m e]; reflexivity.
Qed.

(** Rounding never yields a NaN: the mantissa stays non-negative
    through the shifts. *)

Lemma shr_1_nonneg (mrs : shr_record) :
  0 <= shr_m mrs -> 0 <= shr_m (shr_1 mrs).
Proof.
  destruct mrs as [m r s]; simpl.
  destruct m as [|p|p]; [ | destruct p | ]; simpl; lia.
Qed.

Lemma iter_shr_1_nonneg (p : positive) :
  forall mrs, 0 <= shr_m mrs -> 0 <= shr_m (SpecFloat.iter_pos shr_1 p mrs).
Proof.
  induction p as [p IH|p IH|]; intros mrs Hm; simpl.
  - apply IH, IH, shr_1_nonneg, Hm.
  - apply IH, IH, Hm.
  - apply shr_1_nonneg, Hm.
Qed.

Lemma shr_fexp_nonneg (m e : Z) (l : location) :
  0 <= m -> 0 <= shr_m (fst (shr_fexp prec emax m e l)).
Proof.
  intros Hm. unfold shr_fexp, shr.
  assert (H0 : 0 <= shr_m (shr_record_of_loc m l)).
  { destruct l as [|[]]; exact Hm. }
  match goal with
  | |- context [match ?n with Zpos _ => _ | _ => _ end] => destruct n
  end; simpl; auto.
  apply iter_shr_1_nonneg, H0.
Qed.

Lemma round_nearest_even_nonneg (m : Z) (l : location) :
  0 <= m -> 0 <= round_nearest_even m l.
Proof.
  intros Hm. destruct l as [|[]]; simpl; try lia.
  destruct (Z.even m); lia.
Qed.

Lemma binary_round_aux_not_nan (sx : bool) (mx ex : Z) (lx : location) :
  0 <= mx -> SF_is_nan (binary_round_aux prec emax sx mx ex lx) = false.
Proof.
  intros Hm. unfold binary_round_aux.
  pose proof (shr_fexp_nonneg mx ex lx Hm) as H1.
  destruct (shr_fexp prec emax mx ex lx) as [mrs' e']. simpl in H1.
  pose proof (shr_fexp_nonneg _ e' loc_Exact
                (round_nearest_even_nonneg _ (loc_of_shr_record mrs') H1)) as H2.
  destruct (shr_fexp prec emax _ e' loc_Exact) as [mrs'' e'']. simpl in H2.
  destruct (shr_m mrs'') as [|p|p]; [reflexivity| |lia].
  match goal with |- context [if ?b then _ else _] => destruct b end;
    reflexivity.
Qed.

Lemma binary_normalize_not_nan (m e : Z) (szero : bool) :
  SF_is_nan (binary_normalize prec emax m e szero) = false.
Proof.
  destruct m as [|p|p]; simpl; [reflexivity| |];
    unfold binary_round;
    destruct (shl_align _ _ _) as [mz ez];
    apply binary_round_aux_not_nan; lia.
Qed.

Lemma SFadd_not_nan (x y : spec_float) :
  SF_is_nan x = false -> SF_is_finite y = true ->
  SF_is_nan (SF64add x y) = false.
Proof.
  destruct x as [sx|sx| |sx mx ex], y as [sy|sy| |sy my ey];
    simpl; try discriminate; intros _ _; try reflexivity.
  - destruct sx, sy; reflexivity.
  - apply binary_normalize_not_nan.
Qed.

Lemma SFsub_not_nan (x y : spec_float) :
  SF_is_nan x = false -> SF_is_finite y = true ->
  SF_is_nan (SF64sub x y) = false.
Proof.
  destruct x as [sx|sx| |sx mx ex], y as [sy|sy| |sy my ey];
    simpl; try discriminate; intros _ _; try reflexivity.
  - destruct sx, sy; reflexivity.
  - apply binary_normalize_not_nan.
Qed.

Lemma finite_not_nan (x : float) :
  PrimFloat.is_finite x = true -> PrimFloat.is_nan x = false.
Proof.
  rewrite is_finite_spec, is_nan_spec. destruct (Prim2SF x); auto; discriminate.
Qed.

Lemma add_not_nan (x y : float) :
  PrimFloat.is_nan x = false -> PrimFloat.is_finite y = true ->
  PrimFloat.is_nan (PrimFloat.add x y) = false.
Proof.
  rewrite !is_nan_spec, is_finite_spec, add_spec. apply SFadd_not_nan.
Qed.

Lemma sub_not_nan (x y : float) :
  PrimFloat.is_nan x = false -> PrimFloat.is_finite y = true ->
  PrimFloat.is_nan (PrimFloat.sub x y) = false.
Proof.
  rewrite !is_nan_spec, is_finite_spec, sub_spec. apply SFsub_not_nan.
Qed.

(** A finite number minus itself is [+0]. *)
Lemma SFsub_diag (x : spec_float) :
  SF_is_finite x = true -> SF64sub x x = S754_zero false.
Proof.
  destruct x as [s|s| |s m e]; simpl; try discriminate; intros _.
  - destruct s; reflexivity.
  - match goal with
    | |- binary_normalize _ _ ?d _ _ = _ =>
        replace d with 0 by (symmetry; apply Z.sub_diag)
    end.
    reflexivity.
Qed.

(** Linear interpolation between a finite number and itself, at
    fraction zero, is numerically that number. *)
Lemma lerp_diag (x : float) :
  PrimFloat.is_finite x = true ->
  PrimFloat.eqb
    (PrimFloat.add x (PrimFloat.mul (PrimFloat.sub x x) PrimFloat.zero)) x
  = true.
Proof.
  rewrite is_finite_spec. intros Hx.
  rewrite FloatAxioms.eqb_spec, add_spec, mul_spec, sub_spec, Prim2SF_zero, (SFsub_diag _ Hx).
  destruct (Prim2SF x) as [s|s| |s m e]; simpl in *; try discriminate.
  - destruct s; reflexivity.
  - unfold SFeqb. rewrite SFcompare_finite_refl. reflexivity.
Qed.

End F64.

(** ** The quarter-start offset and the generated range *)

Lemma date_eqb_eq (a b : date) : date_eqb a b = true <-> a = b.
Proof.
destruct a as [y1 m1 d1], b as [y2 m2 d2]; unfold date_eqb; simpl.
rewrite !andb_true_iff, !Z.eqb_eq. split.
- intros [[-> ->] ->]. reflexivity.
- intros [= -> -> ->]. auto.
Qed.

Lemma date_ltb_trans (a b c : date) :
  date_ltb a b = true -> date_ltb b c = true -> date_ltb a c = true.
Proof.
destruct a as [y1 m1 d1], b as [y2 m2 d2], c as [y3 m3 d3].
unfold date_ltb; simpl.
rewrite !orb_true_iff, !andb_true_iff, !orb_true_iff, !andb_true_iff,
  !Z.ltb_lt, !Z.eqb_eq.
lia.
Qed.

Lemma date_ltb_irrefl (a : date) : date_ltb a a = false.
Proof.
destruct a as [y m d]; unfold date_ltb; simpl.
rewrite !Z.ltb_irrefl, !Z.eqb_refl. reflexivity.
Qed.

Lemma on_offset_inv (d : date) :
  is_on_offset d = true -> valid_month d ->
  day d = 1 /\ (month d = 1 \/ month d = 4 \/ month d = 7 \/ month d = 10).
Proof.
unfold is_on_offset, valid_month, startingMonth.
rewrite andb_true_iff, !Z.eqb_eq. intros [Hd Hm] Hv. split; [exact Hd|].
Z.to_euclidean_division_equations. lia.
Qed.

Lemma QuarterBegin_apply_on_offset (d : date) :
  is_on_offset d = true -> valid_month d ->
  QuarterBegin_apply d = add_months 3 d
  /\ is_on_offset (QuarterBegin_apply d) = true
  /\ valid_month (QuarterBegin_apply d)
  /\ date_ltb d (QuarterBegin_apply d) = true.
Proof.
intros Hon Hv. destruct (on_offset_inv d Hon Hv) as [Hd Hm].
destruct d as [y m dd]; simpl in *. subst dd.
unfold QuarterBegin_apply, add_months, shift_month, startingMonth, valid_month,
  date_ltb, is_on_offset; simpl.
destruct Hm as [-> | [-> | [-> | ->]]]; simpl;
  repeat split; try lia;
  try (f_equal; Z.to_euclidean_division_equations; lia);
  rewrite ?orb_true_iff, ?andb_true_iff, ?Z.ltb_lt, ?Z.eqb_eq; lia.
Qed.

(** The elements of the loop are the successive applications of the
    offset to its first date. *)
Lemma generate_range_lookup (end_ : date) (fuel : nat) :
  forall (cur : date) (i : nat) (a : date),
    generate_range fuel cur end_ !! i = Some a ->
    a = Nat.iter i QuarterBegin_apply cur /\ date_leb a end_ = true.
Proof.
induction fuel as [|k IH]; intros cur i a; simpl; [discriminate|].
destruct (date_leb cur end_) eqn:Hle; [|discriminate].
destruct i as [|i]; simpl.
- intros [= <-]. auto.
- intros Hi. apply IH in Hi as [-> Ha]. split; [|exact Ha].
  clear. induction i as [|i IHi]; simpl; [reflexivity|]. now rewrite IHi.
Qed.

Lemma iter_on_offset (cur : date) (i : nat) :
  is_on_offset cur = true -> valid_month cur ->
  is_on_offset (Nat.iter i QuarterBegin_apply cur) = true
  /\ valid_month (Nat.iter i QuarterBegin_apply cur).
Proof.
intros Hon Hv. induction i as [|i [IH1 IH2]]; simpl; [auto|].
destruct (QuarterBegin_apply_on_offset _ IH1 IH2) as (_ & H1 & H2 & _). auto.
Qed.

Lemma iter_increasing (cur : date) (i j : nat) :
  is_on_offset cur = true -> valid_month cur -> (i < j)%nat ->
  date_ltb (Nat.iter i QuarterBegin_apply cur)
           (Nat.iter j QuarterBegin_apply cur) = true.
Proof.
intros Hon Hv Hij. induction Hij as [|j Hij IH].
- destruct (iter_on_offset cur i Hon Hv) as [H1 H2].
  simpl. now apply QuarterBegin_apply_on_offset.
- eapply date_ltb_trans; [exact IH|].
  destruct (iter_on_offset cur j Hon Hv) as [H1 H2].
  simpl. now apply QuarterBegin_apply_on_offset.
Qed.

Lemma rollforward_on_offset (d : date) :
  valid_month d ->
  is_on_offset (rollforward d) = true /\ valid_month (rollforward d).
Proof.
intros Hv. unfold rollforward.
destruct (is_on_offset d) eqn:Hon; [auto|].
destruct d as [y m dd]. unfold valid_month in *. simpl in Hv.
assert (Hm : m = 1 \/ m = 2 \/ m = 3 \/ m = 4 \/ m = 5 \/ m = 6 \/ m = 7
             \/ m = 8 \/ m = 9 \/ m = 10 \/ m = 11 \/ m = 12) by lia.
unfold QuarterBegin_apply, shift_month, is_on_offset, startingMonth.
cbn [year month day].
repeat (destruct Hm as [-> | Hm]); try subst m;
  destruct (dd <? 1); simpl;
  (split; [vm_compute; reflexivity | vm_compute; split; discriminate]).
Qed.

Lemma month_ordinal_apply (d : date) :
  is_on_offset d = true -> valid_month d ->
  month_ordinal (QuarterBegin_apply d) = month_ordinal d + 3.
Proof.
intros Hon Hv.
destruct (QuarterBegin_apply_on_offset d Hon Hv) as (-> & _).
unfold month_ordinal, add_months. cbn [year month].
Z.to_euclidean_division_equations. lia.
Qed.

Lemma date_leb_ordinal (a b : date) :
  valid_month a -> valid_month b ->
  month_ordinal b < month_ordinal a -> date_leb a b = false.
Proof.
unfold valid_month, month_ordinal. destruct a as [y1 m1 d1], b as [y2 m2 d2].
cbn [year month]. intros Ha Hb Hlt.
apply not_true_is_false. unfold date_leb, date_ltb, date_eqb. cbn [year month day].
rewrite !orb_true_iff, !andb_true_iff, !orb_true_iff, !andb_true_iff,
  !Z.ltb_lt, !Z.eqb_eq.
lia.
Qed.

(** The loop stops on its test, not for lack of fuel: beyond the bound,
    more turns produce nothing more. *)
Lemma generate_range_fuel (end_ : date) (fuel : nat) :
  valid_month end_ ->
  forall (cur : date) (extra : nat),
    is_on_offset cur = true -> valid_month cur ->
    month_ordinal end_ - month_ordinal cur < 3 * Z.of_nat fuel ->
    generate_range (fuel + extra) cur end_ = generate_range fuel cur end_.
Proof.
intros Hend. induction fuel as [|k IH]; intros cur extra Hon Hv Hlt.
- assert (Hle : date_leb cur end_ = false)
    by (apply date_leb_ordinal; [assumption|assumption|lia]).
  destruct extra; simpl; [reflexivity|]. now rewrite Hle.
- simpl. destruct (date_leb cur end_); [|reflexivity]. f_equal.
  destruct (QuarterBegin_apply_on_offset cur Hon Hv) as (_ & Hon' & Hv' & _).
  apply IH; [assumption|assumption|].
  rewrite month_ordinal_apply by assumption. lia.
Qed.

Lemma date_range_QS_fuel (start end_ : date) (extra : nat) :
  valid_month start -> valid_month end_ ->
  let first := rollforward start in
  generate_range
    (S (Z.to_nat (month_ordinal end_ - month_ordinal first)) + extra)
    first end_
  = date_range_QS start end_.
Proof.
intros Hs He first. unfold date_range_QS. fold first.
destruct (rollforward_on_offset start Hs) as [Hon Hv].
apply generate_range_fuel; try assumption. fold first. lia.
Qed.

(** For every start and end: the generated dates are quarter starts,
    none is after the end, they increase strictly and each is three
    months after the one before. *)
Lemma date_range_QS_spaced (start end_ : date) :
  valid_month start ->
  let axis := date_range_QS start end_ in
  (forall i a, axis !! i = Some a ->
     is_on_offset a = true /\ valid_month a /\ date_leb a end_ = true)
  /\ (forall i j a b, axis !! i = Some a -> axis !! j = Some b ->
        (i < j)%nat -> date_ltb a b = true)
  /\ (forall i a b, axis !! i = Some a -> axis !! S i = Some b ->
        b = add_months 3 a).
Proof.
intros Hs axis. destruct (rollforward_on_offset start Hs) as [Hon Hv].
unfold axis, date_range_QS. split; [|split].
- intros i a Ha. apply generate_range_lookup in Ha as [-> Ha].
  destruct (iter_on_offset _ i Hon Hv) as [H1 H2]. auto.
- intros i j a b Ha Hb Hij.
  apply generate_range_lookup in Ha as [-> _].
  apply generate_range_lookup in Hb as [-> _].
  now apply iter_increasing.
- intros i a b Ha Hb.
  apply generate_range_lookup in Ha as [-> _].
  apply generate_range_lookup in Hb as [-> _].
  destruct (iter_on_offset _ i Hon Hv) as [H1 H2].
  simpl. now apply QuarterBegin_apply_on_offset.
Qed.

Lemma dates_eq :
  dates = map (fun k => mkdate (2005 + k / 4) (1 + 3 * (k mod 4)) 1)
              (map Z.of_nat (seq 0 24)).
Proof. vm_compute. reflexivity. Qed.

Lemma quarter_start_in_dates (d : date) :
  is_on_offset d = true -> valid_month d ->
  date_leb (mkdate 2005 1 1) d = true ->
  date_leb d (mkdate 2010 12 31) = true ->
  d ∈ dates.
Proof.
intros Hon Hv Hlo Hhi. destruct (on_offset_inv d Hon Hv) as [Hd Hm].
destruct d as [y m dd]. cbn [year month day] in *. subst dd.
assert (Hy : 2005 <= y <= 2010).
{ unfold date_leb, date_ltb, date_eqb in Hlo, Hhi. cbn [year month day] in *.
  rewrite !orb_true_iff, !andb_true_iff, ?orb_true_iff, ?andb_true_iff,
    ?Z.ltb_lt, ?Z.eqb_eq in Hlo, Hhi.
  lia. }
assert (Hy' : y = 2005 \/ y = 2006 \/ y = 2007 \/ y = 2008 \/ y = 2009
              \/ y = 2010) by lia.
assert (Hex : existsb (date_eqb (mkdate y m 1)) dates = true).
{ destruct Hy' as [-> | [-> | [-> | [-> | [-> | ->]]]]];
    destruct Hm as [-> | [-> | [-> | ->]]]; vm_compute; reflexivity. }
apply existsb_exists in Hex as (x & Hin & Hx).
apply date_eqb_eq in Hx. subst x. now apply list_elem_of_In.
Qed.

(** C2. The generated time axis has exactly 24 elements, from 2005-01-01
    to the last quarter start before 2010-12-31; it is strictly
    increasing, and each element is exactly three months after the
    previous one.  It holds every quarter start of the range, and the
    loop building it stops on its test. *)
Theorem dates_quarterly_axis :
  length dates = 24%nat
  /\ dates !! 0%nat = Some (mkdate 2005 1 1)
  /\ dates !! 23%nat = Some (mkdate 2010 10 1)
  /\ (forall i a, dates !! i = Some a ->
        is_on_offset a = true
        /\ date_leb (mkdate 2005 1 1) a = true
        /\ date_leb a (mkdate 2010 12 31) = true)
  /\ (forall i j a b, dates !! i = Some a -> dates !! j = Some b ->
        (i < j)%nat -> date_ltb a b = true)
  /\ (forall i a b, dates !! i = Some a -> dates !! S i = Some b ->
        b = add_months 3 a)
  /\ (forall d, is_on_offset d = true -> valid_month d ->
        date_leb (mkdate 2005 1 1) d = true ->
        date_leb d (mkdate 2010 12 31) = true -> d ∈ dates)
  /\ (forall extra,
        generate_range (25 + extra) (mkdate 2005 1 1) (mkdate 2010 12 31)
        = dates).
Proof.
assert (Hs : valid_month (mkdate 2005 1 1)) by (vm_compute; split; discriminate).
assert (He : valid_month (mkdate 2010 12 31))
  by (vm_compute; split; discriminate).
destruct (date_range_QS_spaced (mkdate 2005 1 1) (mkdate 2010 12 31) Hs)
  as (H1 & H2 & H3).
split; [reflexivity|]. split; [reflexivity|]. split; [reflexivity|].
split; [|split; [exact H2|split; [exact H3|split]]].
- intros i a Ha. destruct (H1 i a Ha) as (Ha1 & _ & Ha2).
  split; [exact Ha1|]. split; [|exact Ha2].
  destruct i as [|i].
  + vm_compute in Ha. apply (inj Some) in Ha. subst a. reflexivity.
  + assert (H0 : dates !! 0%nat = Some (mkdate 2005 1 1)) by reflexivity.
    unfold date_leb. rewrite (H2 0%nat (S i) _ a H0 Ha); [reflexivity|lia].
- exact quarter_start_in_dates.
- intros extra.
  pose proof (date_range_QS_fuel (mkdate 2005 1 1) (mkdate 2010 12 31) extra
                Hs He) as Hf.
  exact Hf.
Qed.

(** ** Array operations *)

Lemma where_from_head (mask : list bool) :
  forall k,
    match head (np.where_from k mask) with
    | None => forall j, mask !! j <> Some true
    | Some i =>
        exists j, i = (k + j)%nat /\ mask !! j = Some true
                  /\ forall j', (j' < j)%nat -> mask !! j' = Some false
    end.
Proof.
induction mask as [|b rest IH]; intros k; simpl.
- intros j. rewrite lookup_nil. discriminate.
- destruct b; simpl.
  + exists 0%nat. repeat split; [lia|]. intros j' Hj'. lia.
  + specialize (IH (S k)). destruct (head (np.where_from (S k) rest)) as [i|].
    * destruct IH as (j & -> & Hj & Hlt). exists (S j).
      repeat split; [lia|exact Hj|].
      intros [|j'] Hj'; [reflexivity|]. apply Hlt. lia.
    * intros [|j]; simpl; [discriminate|apply IH].
Qed.

(** The lookup [np.where(axis == d)[0][0]] gives the first position of
    [d], and raises [IndexError] exactly when the axis lacks [d]. *)
Lemma locate_spec (axis : list date) (d : date) :
  match locate axis d with
  | inr i => axis !! i = Some d /\ forall j, (j < i)%nat -> axis !! j <> Some d
  | inl e => e = IndexError /\ d ∉ axis
  end.
Proof.
unfold locate, np.getitem, np.where_.
rewrite <- head_lookup.
pose proof (where_from_head (np.eq axis d) 0) as H.
destruct (head (np.where_from 0 (np.eq axis d))) as [i|].
- destruct H as (j & -> & Hj & Hlt). simpl.
  unfold np.eq in *. rewrite list_lookup_fmap in Hj. split.
  + destruct (axis !! j) as [a|]; [|discriminate].
    simpl in Hj. injection Hj as Hj. apply date_eqb_eq in Hj. now subst.
  + intros j' Hj' Ha. specialize (Hlt j' Hj').
    rewrite list_lookup_fmap, Ha in Hlt. simpl in Hlt.
    injection Hlt as Hlt. assert (date_eqb d d = true) by now apply date_eqb_eq.
    congruence.
- split; [reflexivity|]. intros Hin.
  apply list_elem_of_lookup in Hin as [j Hj]. apply (H j).
  unfold np.eq. rewrite list_lookup_fmap, Hj. simpl. f_equal.
  now apply date_eqb_eq.
Qed.

Lemma locate_fails_iff (axis : list date) (d : date) :
  locate axis d = inl IndexError <-> d ∉ axis.
Proof.
pose proof (locate_spec axis d) as H. destruct (locate axis d) as [e|i].
- destruct H as [-> H]. tauto.
- destruct H as [H _]. split; [discriminate|].
  intros Hn. exfalso. apply Hn. apply list_elem_of_lookup. eauto.
Qed.

Section ArrayFacts.
Context {F : Type} `{Scalar F}.

Lemma slice_isub_lookup (a : list F) (s e : nat) (c : F) (i : nat) :
  np.slice_isub a s e c !! i
  = (fun x => if (s <=? i)%nat && (i <? e)%nat then fsub x c else x) <$> a !! i.
Proof. unfold np.slice_isub. apply list_lookup_imap. Qed.

Lemma slice_isub_length (a : list F) (s e : nat) (c : F) :
  length (np.slice_isub a s e c) = length a.
Proof. unfold np.slice_isub. apply length_imap. Qed.

Lemma add_same_length (a b : list F) :
  length a = length b -> np.add a b = inr (zip_with fadd a b).
Proof. intros Hl. unfold np.add. rewrite Hl, Nat.eqb_refl. reflexivity. Qed.

Lemma baseline_growth_inr (axis : list date) (draws : list F) (s e : nat) :
  shock_period_start axis = inr s -> shock_period_end axis = inr e ->
  baseline_growth axis draws = inr (np.slice_isub draws s e (flit (45 # 10))).
Proof. intros Hs He. unfold baseline_growth. rewrite Hs, He. reflexivity. Qed.

End ArrayFacts.

Lemma shock_period_start_dates : shock_period_start dates = inr 12%nat.
Proof. vm_compute. reflexivity. Qed.

Lemma shock_period_end_dates : shock_period_end dates = inr 16%nat.
Proof. vm_compute. reflexivity. Qed.

(** C10. On the script's axis the shock starts at index 12 and ends
    before index 16; these four positions are the quarters of 2008, and
    the baseline after the shock is the draw minus 4.5 on them and the
    draw itself everywhere else. *)
Theorem shock_window_is_2008 :
  shock_period_start dates = inr 12%nat
  /\ shock_period_end dates = inr 16%nat
  /\ window 12 16 dates
     = [mkdate 2008 1 1; mkdate 2008 4 1; mkdate 2008 7 1; mkdate 2008 10 1]
  /\ np.where_ (map (fun d => year d =? 2008) dates) = [12; 13; 14; 15]%nat
  /\ forall (F : Type) (S : Scalar F) (draws : list F),
       exists b,
         baseline_growth dates draws = inr b
         /\ length b = length draws
         /\ forall i x, draws !! i = Some x ->
              b !! i = Some (if (12 <=? i)%nat && (i <? 16)%nat
                             then fsub x (flit (45 # 10)) else x).
Proof.
split; [exact shock_period_start_dates|].
split; [exact shock_period_end_dates|].
split; [vm_compute; reflexivity|]. split; [vm_compute; reflexivity|].
intros F S draws. eexists. split; [|split].
- apply baseline_growth_inr;
    [exact shock_period_start_dates|exact shock_period_end_dates].
- apply slice_isub_length.
- intros i x Hx. rewrite slice_isub_lookup, Hx. reflexivity.
Qed.

(** ** Running the generator *)

(** The table a successful generation builds from an axis and the values
    of its growth column. *)
Lemma build_frame (axis : list date) (values : list float) :
  length values = length axis ->
  rbind (pd.DataFrame_of_dict
           [("Date"%string, pd.DatetimeCol axis);
            ("GDP_Growth_Rate"%string, pd.Float64Col values)])
        (fun frame => pd.set_index frame "Date")
  = inr (pd.mkDataFrame (pd.DatetimeIndex axis)
           [("GDP_Growth_Rate"%string, pd.Float64Col values)]).
Proof.
intros Hl. unfold pd.DataFrame_of_dict. simpl. rewrite Hl, Nat.eqb_refl.
reflexivity.
Qed.

Lemma draws_length (w : world) (n : nat) :
  length (baseline_draws w n) = n /\ length (noise_draws w n) = n.
Proof.
unfold baseline_draws, noise_draws. now rewrite !length_map, !length_seq.
Qed.

(** With both shock dates on the axis the generator succeeds: it consumes
    two batches of variates, prints its two notices and binds [df]. *)
Lemma generator_on_ok (axis : list date) (s e : nat) (w : world) :
  shock_period_start axis = inr s -> shock_period_end axis = inr e ->
  let n := length axis in
  generator_on axis w
  = (mkworld (fun k => rng w (n + (n + k))%nat)
       (stdout w
        ++ [Text "Generating dummy Quarterly GDP Growth Data...";
            Text ("DataFrame created with " ++ format_int n
                  ++ " quarterly observations.")])
       (figure w)
       (Some (pd.mkDataFrame (pd.DatetimeIndex axis)
                [("GDP_Growth_Rate"%string,
                  pd.Float64Col
                    (zip_with PrimFloat.add
                       (np.slice_isub (baseline_draws w n) s e (flit (45 # 10)))
                       (noise_draws w n)))])),
     inr tt).
Proof.
intros Hs He n.
destruct (draws_length w n) as [Hb Hn].
unfold generator_on, mbind, M_bind, bind, print, random_normal, lift, assign_df.
cbn [rng stdout figure df].
fold n. fold (baseline_draws w n). fold (noise_draws w n).
rewrite (baseline_growth_inr axis _ s e Hs He).
rewrite add_same_length by (now rewrite slice_isub_length, Hb, Hn).
pose proof (build_frame axis
  (zip_with PrimFloat.add
     (np.slice_isub (baseline_draws w n) s e (flit (45 # 10)))
     (noise_draws w n))) as Hf.
unfold rbind in Hf.
destruct (pd.DataFrame_of_dict _) as [err|frame] eqn:Hd.
- discriminate Hf.
  rewrite length_zip_with, slice_isub_length, Hb, Hn. fold n. lia.
- cbn [fadd float64] in Hd. rewrite Hf.
  + unfold pd.len. cbn [pd.df_index pd.index_length]. fold n.
    rewrite <- app_assoc. reflexivity.
  + rewrite length_zip_with, slice_isub_length, Hb, Hn. fold n. lia.
Qed.

(** Without one of the shock dates the generator stops at the lookup,
    after its first notice and its first batch of variates. *)
Lemma generator_on_fail (axis : list date) (w : world) :
  pd.to_datetime 2008 1 1 ∉ axis \/ pd.to_datetime 2009 1 1 ∉ axis ->
  generator_on axis w
  = (mkworld (fun k => rng w (length axis + k)%nat)
       (stdout w ++ [Text "Generating dummy Quarterly GDP Growth Data..."])
       (figure w) (df w),
     inl IndexError).
Proof.
intros Habs.
assert (Hb : forall draws : list float,
           baseline_growth axis draws = inl IndexError).
{ intros draws. unfold baseline_growth, shock_period_start, shock_period_end.
  pose proof (locate_spec axis (pd.to_datetime 2008 1 1)) as H1.
  pose proof (locate_spec axis (pd.to_datetime 2009 1 1)) as H2.
  destruct (locate axis (pd.to_datetime 2008 1 1)) as [e1|s]; simpl.
  - destruct H1 as [-> _]. reflexivity.
  - destruct (locate axis (pd.to_datetime 2009 1 1)) as [e2|e]; simpl.
    + destruct H2 as [-> _]. reflexivity.
    + exfalso. destruct H1 as [H1 _], H2 as [H2 _].
      destruct Habs as [Hn|Hn]; apply Hn; apply list_elem_of_lookup; eauto. }
unfold generator_on, mbind, M_bind, bind, print, random_normal, lift.
cbn [rng stdout figure df]. rewrite Hb. reflexivity.
Qed.

(** Either both shock dates are found on the axis, or one is absent. *)
Lemma shock_dates_cases (axis : list date) :
  (exists s e, shock_period_start axis = inr s
               /\ shock_period_end axis = inr e
               /\ pd.to_datetime 2008 1 1 ∈ axis
               /\ pd.to_datetime 2009 1 1 ∈ axis)
  \/ (pd.to_datetime 2008 1 1 ∉ axis \/ pd.to_datetime 2009 1 1 ∉ axis).
Proof.
unfold shock_period_start, shock_period_end.
pose proof (locate_spec axis (pd.to_datetime 2008 1 1)) as L1.
pose proof (locate_spec axis (pd.to_datetime 2009 1 1)) as L2.
destruct (locate axis (pd.to_datetime 2008 1 1)) as [e1|s];
  [right; left; apply L1|].
destruct (locate axis (pd.to_datetime 2009 1 1)) as [e2|e];
  [right; right; apply L2|].
left. exists s, e. repeat split; try reflexivity;
  apply list_elem_of_lookup; eexists; [apply L1|apply L2].
Qed.

(** On an axis generated for a start with a calendar month no date
    occurs twice. *)
Lemma axis_position_unique (start end_ : date) (i j : nat) (d : date) :
  valid_month start ->
  date_range_QS start end_ !! i = Some d ->
  date_range_QS start end_ !! j = Some d ->
  i = j.
Proof.
intros Hv Hi Hj.
destruct (date_range_QS_spaced start end_ Hv) as (_ & Hinc & _).
destruct (Nat.lt_trichotomy i j) as [Hlt|[Heq|Hgt]]; [|exact Heq|].
- pose proof (Hinc i j d d Hi Hj Hlt) as Hirr.
  rewrite date_ltb_irrefl in Hirr. discriminate.
- pose proof (Hinc j i d d Hj Hi Hgt) as Hirr.
  rewrite date_ltb_irrefl in Hirr. discriminate.
Qed.

(** C1. The growth column is aligned with the date axis, and its value
    at each position is the baseline draw, less 4.5 exactly when the
    position lies from the index of 2008-01-01 (the one position of the
    axis holding that date, index 12) up to but excluding the index of
    2009-01-01 (index 16), plus the noise draw of that position: the
    noise is added at the shocked positions too. *)
Theorem generator_growth_series (w : world) :
  exists (s e : nat) (values : list float),
    shock_period_start dates = inr s
    /\ shock_period_end dates = inr e
    /\ (forall j, dates !! j = Some (mkdate 2008 1 1) <-> j = s)
    /\ (forall j, dates !! j = Some (mkdate 2009 1 1) <-> j = e)
    /\ s = 12%nat /\ e = 16%nat
    /\ snd (generator w) = inr tt
    /\ df (fst (generator w))
       = Some (pd.mkDataFrame (pd.DatetimeIndex dates)
                 [("GDP_Growth_Rate"%string, pd.Float64Col values)])
    /\ length values = length dates
    /\ forall i, (i < n_points)%nat ->
         exists (d : date) (draw noise : float),
           dates !! i = Some d
           /\ baseline_draws w n_points !! i = Some draw
           /\ noise_draws w n_points !! i = Some noise
           /\ values !! i
              = Some (PrimFloat.add
                        (if (s <=? i)%nat && (i <? e)%nat
                         then PrimFloat.sub draw 4.5
                         else draw)
                        noise).
Proof.
assert (Hv : valid_month (mkdate 2005 1 1)) by (vm_compute; split; discriminate).
assert (H12 : dates !! 12%nat = Some (mkdate 2008 1 1)) by (vm_compute; reflexivity).
assert (H16 : dates !! 16%nat = Some (mkdate 2009 1 1)) by (vm_compute; reflexivity).
exists 12%nat, 16%nat. eexists.
split; [exact shock_period_start_dates|].
split; [exact shock_period_end_dates|].
split.
{ intros j. split; [|intros ->; exact H12].
  intros Hj.
  exact (axis_position_unique (mkdate 2005 1 1) (mkdate 2010 12 31) j 12 _
           Hv Hj H12). }
split.
{ intros j. split; [|intros ->; exact H16].
  intros Hj.
  exact (axis_position_unique (mkdate 2005 1 1) (mkdate 2010 12 31) j 16 _
           Hv Hj H16). }
split; [reflexivity|]. split; [reflexivity|].
unfold generator.
rewrite (generator_on_ok dates 12 16 w shock_period_start_dates
           shock_period_end_dates).
cbn [fst snd df]. split; [reflexivity|]. split; [reflexivity|].
fold n_points. destruct (draws_length w n_points) as [Hb Hn].
split.
- rewrite length_zip_with, slice_isub_length, Hb, Hn. unfold n_points. lia.
- intros i Hi.
  destruct (lookup_lt_is_Some_2 dates i Hi) as [d Hd].
  destruct (lookup_lt_is_Some_2 (baseline_draws w n_points) i) as [x Hx];
    [lia|].
  destruct (lookup_lt_is_Some_2 (noise_draws w n_points) i) as [y Hy];
    [lia|].
  exists d, x, y. repeat split; try assumption.
  rewrite lookup_zip_with, slice_isub_lookup, Hx, Hy. reflexivity.
Qed.

(** C8. Any two runs build tables of one structure: the same index of
    24 dates and the same single column name, with 24 values each; only
    the values depend on the draws. *)
Theorem runs_share_structure (w1 w2 : world) :
  exists (v1 v2 : list float),
    df (fst (generator w1))
    = Some (pd.mkDataFrame (pd.DatetimeIndex dates)
              [("GDP_Growth_Rate"%string, pd.Float64Col v1)])
    /\ df (fst (generator w2))
       = Some (pd.mkDataFrame (pd.DatetimeIndex dates)
                 [("GDP_Growth_Rate"%string, pd.Float64Col v2)])
    /\ length dates = 24%nat
    /\ length v1 = 24%nat
    /\ length v2 = 24%nat.
Proof.
unfold generator.
rewrite !(generator_on_ok dates 12 16 _ shock_period_start_dates
            shock_period_end_dates).
cbn [fst df]. do 2 eexists. split; [reflexivity|]. split; [reflexivity|].
destruct (draws_length w1 (length dates)) as [Hb1 Hn1].
destruct (draws_length w2 (length dates)) as [Hb2 Hn2].
split; [reflexivity|].
rewrite !length_zip_with, !slice_isub_length, Hb1, Hn1, Hb2, Hn2.
split; reflexivity.
Qed.

(** ** Running the reporter and the renderer *)

(** One statement at a time. *)

Lemma run_print {B : Type} (o : output) (k : unit -> M B) (w : world) :
  (print o ≫= k) w
  = k tt (mkworld (rng w) (stdout w ++ [o]) (figure w) (df w)).
Proof. reflexivity. Qed.

Lemma run_draw {B : Type} (c : plt.call) (k : unit -> M B) (w : world) :
  (draw c ≫= k) w
  = k tt (mkworld (rng w) (stdout w) (figure w ++ [c]) (df w)).
Proof. reflexivity. Qed.

Lemma run_read_df {B : Type} (k : pd.DataFrame -> M B) (w : world)
    (frame : pd.DataFrame) :
  df w = Some frame -> (read_df ≫= k) w = k frame w.
Proof.
intros Hw. unfold mbind, M_bind, bind, read_df. rewrite Hw. reflexivity.
Qed.

Lemma run_read_df_unbound {B : Type} (k : pd.DataFrame -> M B) (w : world) :
  df w = None -> (read_df ≫= k) w = (w, inl NameError).
Proof.
intros Hw. unfold mbind, M_bind, bind, read_df. rewrite Hw. reflexivity.
Qed.

Lemma run_lift {A B : Type} (r : result A) (k : A -> M B) (w : world) :
  (lift r ≫= k) w
  = match r with inl e => (w, inl e) | inr a => k a w end.
Proof. unfold mbind, M_bind, bind, lift. destruct r; reflexivity. Qed.

Ltac run_step :=
  first [ rewrite run_print | rewrite run_draw | rewrite run_lift ];
  cbn [rng stdout figure df].

Section Runs.
Context `{pd.Reductions}.

(** What the reporter writes is a function of the variable [df] alone. *)
Lemma reporter_reads_df (table : option pd.DataFrame) :
  exists (out : list output) (res : result unit),
    forall w : world,
      df w = table ->
      reporter w
      = (mkworld (rng w) (stdout w ++ out) (figure w) (df w), res).
Proof.
destruct table as [frame|].
- destruct (pd.getitem frame "GDP_Growth_Rate") as [err|col] eqn:Hcol.
  + eexists [_], (inl err). intros w Hw. unfold reporter.
    run_step. rewrite (run_read_df _ _ frame) by exact Hw.
    run_step. rewrite Hcol. reflexivity.
  + eexists [_; _; _; _], (inr tt). intros w Hw. unfold reporter.
    run_step. rewrite (run_read_df _ _ frame) by exact Hw.
    run_step. rewrite Hcol. run_step.
    rewrite (run_read_df _ _ frame) by exact Hw. run_step.
    rewrite (run_read_df _ _ frame) by exact Hw.
    unfold print. cbn [rng stdout figure df].
    rewrite <- !app_assoc. reflexivity.
- eexists [_], (inl NameError). intros w Hw. unfold reporter.
  run_step. rewrite run_read_df_unbound by exact Hw. reflexivity.
Qed.

Lemma reporter_ok (w : world) (frame : pd.DataFrame) (col : pd.column) :
  df w = Some frame ->
  pd.getitem frame "GDP_Growth_Rate" = inr col ->
  reporter w
  = (mkworld (rng w)
       (stdout w
        ++ [Text (nl ++ "--- Descriptive Statistics (GDP Growth Rate) ---");
            Summary (pd.describe col);
            Text (nl ++ "Missing values check: "
                  ++ format_int (pd.isnull_sum_sum frame));
            Text ("Index type check: The data is time-series indexed: "
                  ++ format_bool (pd.is_DatetimeIndex (pd.df_index frame)))])
       (figure w) (df w),
     inr tt).
Proof.
intros Hw Hcol. unfold reporter.
run_step. rewrite (run_read_df _ _ frame) by exact Hw.
run_step. rewrite Hcol. run_step.
rewrite (run_read_df _ _ frame) by exact Hw. run_step.
rewrite (run_read_df _ _ frame) by exact Hw.
unfold print. cbn [rng stdout figure df].
rewrite <- !app_assoc. reflexivity.
Qed.

Lemma renderer_ok (w : world) (frame : pd.DataFrame) (col : pd.column) :
  df w = Some frame ->
  pd.getitem frame "GDP_Growth_Rate" = inr col ->
  renderer w
  = (mkworld (rng w)
       (stdout w
        ++ [Text (nl ++ "EDA complete. The visualization clearly shows the simulated shock and recovery period, ready for deeper statistical modeling in R.")])
       (figure w
        ++ [plt.style_use "seaborn-v0_8-darkgrid"; plt.figure 12 6;
            plt.plot (pd.df_index frame) col "Quarterly GDP Growth (%)";
            plt.axvspan (mkdate 2007 12 1) (mkdate 2009 6 1)
              "Post-Election Crisis Period";
            plt.axvline (mkdate 2007 12 27) "Election Date (Dec 2007)";
            plt.title "Time Series EDA: Kenya GDP Growth Rate (2005-2010)";
            plt.xlabel "Date (Quarterly)"; plt.ylabel "GDP Growth Rate (%)";
            plt.legend "lower left"; plt.xticks 45; plt.tight_layout;
            plt.show])
       (df w),
     inr tt).
Proof.
intros Hw Hcol. unfold renderer.
do 2 run_step. rewrite (run_read_df _ _ frame) by exact Hw.
run_step. rewrite Hcol. cbv zeta. do 10 run_step.
unfold print. cbn [rng stdout figure df].
rewrite <- !app_assoc. reflexivity.
Qed.

Lemma size_notice :
  ("DataFrame created with " ++ format_int (length dates)
   ++ " quarterly observations.")%string
  = "DataFrame created with 24 quarterly observations."%string.
Proof. vm_compute. reflexivity. Qed.

(** A whole run on an axis that holds both shock dates: the script ends
    normally, and these are the seven things it prints, in order. *)
Lemma script_on_ok (axis : list date) (s e : nat) (w : world) :
  shock_period_start axis = inr s -> shock_period_end axis = inr e ->
  exists frame col,
    df (fst (generator_on axis w)) = Some frame
    /\ pd.getitem frame "GDP_Growth_Rate" = inr col
    /\ snd (script_on axis w) = inr tt
    /\ df (fst (script_on axis w)) = Some frame
    /\ stdout (fst (script_on axis w))
       = stdout w
         ++ [Text "Generating dummy Quarterly GDP Growth Data...";
             Text ("DataFrame created with " ++ format_int (length axis)
                   ++ " quarterly observations.");
             Text (nl ++ "--- Descriptive Statistics (GDP Growth Rate) ---");
             Summary (pd.describe col);
             Text (nl ++ "Missing values check: "
                   ++ format_int (pd.isnull_sum_sum frame));
             Text "Index type check: The data is time-series indexed: True";
             Text (nl ++ "EDA complete. The visualization clearly shows the simulated shock and recovery period, ready for deeper statistical modeling in R.")].
Proof.
intros Hs He.
pose proof (generator_on_ok axis s e w Hs He) as Hg. cbv zeta in Hg.
set (values := zip_with PrimFloat.add _ _) in Hg.
set (frame := pd.mkDataFrame (pd.DatetimeIndex axis)
                [("GDP_Growth_Rate"%string, pd.Float64Col values)]) in Hg.
assert (Hcol : pd.getitem frame "GDP_Growth_Rate" = inr (pd.Float64Col values))
  by reflexivity.
exists frame, (pd.Float64Col values).
unfold script_on, mbind, M_bind, bind.
rewrite Hg. cbn [fst snd df].
split; [reflexivity|]. split; [exact Hcol|].
erewrite reporter_ok; [|reflexivity|exact Hcol].
cbn [rng stdout figure df].
erewrite renderer_ok; [|reflexivity|exact Hcol].
cbn [rng stdout figure df fst snd].
split; [reflexivity|]. split; [reflexivity|].
rewrite <- !app_assoc. reflexivity.
Qed.

(** An exception of the generator is the outcome of the run. *)
Lemma script_on_fail (axis : list date) (w : world) :
  pd.to_datetime 2008 1 1 ∉ axis \/ pd.to_datetime 2009 1 1 ∉ axis ->
  script_on axis w = generator_on axis w
  /\ snd (script_on axis w) = inl IndexError.
Proof.
intros Habs. unfold script_on, mbind, M_bind, bind.
rewrite (generator_on_fail axis w Habs). split; reflexivity.
Qed.

Lemma script_ok (w : world) :
  exists frame col,
    df (fst (generator w)) = Some frame
    /\ pd.getitem frame "GDP_Growth_Rate" = inr col
    /\ snd (script w) = inr tt
    /\ df (fst (script w)) = Some frame
    /\ stdout (fst (script w))
       = stdout w
         ++ [Text "Generating dummy Quarterly GDP Growth Data...";
             Text "DataFrame created with 24 quarterly observations.";
             Text (nl ++ "--- Descriptive Statistics (GDP Growth Rate) ---");
             Summary (pd.describe col);
             Text (nl ++ "Missing values check: "
                   ++ format_int (pd.isnull_sum_sum frame));
             Text "Index type check: The data is time-series indexed: True";
             Text (nl ++ "EDA complete. The visualization clearly shows the simulated shock and recovery period, ready for deeper statistical modeling in R.")].
Proof.
destruct (script_on_ok dates 12 16 w shock_period_start_dates
            shock_period_end_dates)
  as (frame & col & Hg & Hcol & Hres & Hd & Hout).
rewrite size_notice in Hout. exists frame, col. unfold script, generator. auto.
Qed.

End Runs.

(** C3. The shock-boundary lookup raises [IndexError] if and only if
    2008-01-01 or 2009-01-01 is absent from the axis; nothing catches
    it, so it is then the outcome of the generator and of the whole run,
    which have no other failure.  The script's own axis holds both
    dates, so its generation always completes. *)
Theorem shock_lookup_failure (R : pd.Reductions) (axis : list date)
    (w : world) :
  let absent :=
    pd.to_datetime 2008 1 1 ∉ axis \/ pd.to_datetime 2009 1 1 ∉ axis in
  ((shock_period_start axis = inl IndexError
    \/ shock_period_end axis = inl IndexError) <-> absent)
  /\ (snd (generator_on axis w) = inl IndexError <-> absent)
  /\ (snd (generator_on axis w) = inr tt <-> ~ absent)
  /\ (snd (script_on axis w) = inl IndexError <-> absent)
  /\ (snd (script_on axis w) = inr tt <-> ~ absent)
  /\ pd.to_datetime 2008 1 1 ∈ dates
  /\ pd.to_datetime 2009 1 1 ∈ dates
  /\ snd (generator w) = inr tt
  /\ snd (script w) = inr tt.
Proof.
intros absent. unfold absent.
split; [unfold shock_period_start, shock_period_end;
        rewrite !locate_fails_iff; reflexivity|].
assert (Hrun : forall axis' : list date,
  (exists s e, shock_period_start axis' = inr s
               /\ shock_period_end axis' = inr e
               /\ pd.to_datetime 2008 1 1 ∈ axis'
               /\ pd.to_datetime 2009 1 1 ∈ axis') ->
  snd (generator_on axis' w) = inr tt /\ snd (script_on axis' w) = inr tt).
{ intros axis' (s & e & Hs & He & _ & _). split.
  - now rewrite (generator_on_ok axis' s e w Hs He).
  - destruct (script_on_ok axis' s e w Hs He) as (_ & _ & _ & _ & Hr & _).
    exact Hr. }
assert (Haxis :
  (snd (generator_on axis w) = inl IndexError
   <-> pd.to_datetime 2008 1 1 ∉ axis \/ pd.to_datetime 2009 1 1 ∉ axis)
  /\ (snd (generator_on axis w) = inr tt
      <-> ~ (pd.to_datetime 2008 1 1 ∉ axis \/ pd.to_datetime 2009 1 1 ∉ axis))
  /\ (snd (script_on axis w) = inl IndexError
      <-> pd.to_datetime 2008 1 1 ∉ axis \/ pd.to_datetime 2009 1 1 ∉ axis)
  /\ (snd (script_on axis w) = inr tt
      <-> ~ (pd.to_datetime 2008 1 1 ∉ axis \/ pd.to_datetime 2009 1 1 ∉ axis))).
{ destruct (shock_dates_cases axis) as [Hok|Habs].
  - destruct (Hrun axis Hok) as [Hg Hr]. rewrite Hg, Hr.
    destruct Hok as (s & e & _ & _ & H1 & H2).
    repeat split; try discriminate; tauto.
  - destruct (script_on_fail axis w Habs) as [_ Hr]. rewrite Hr.
    rewrite (generator_on_fail axis w Habs). cbn [snd].
    repeat split; try discriminate; tauto. }
destruct Haxis as (A1 & A2 & A3 & A4).
assert (Hdates : exists s e, shock_period_start dates = inr s
                   /\ shock_period_end dates = inr e
                   /\ pd.to_datetime 2008 1 1 ∈ dates
                   /\ pd.to_datetime 2009 1 1 ∈ dates).
{ exists 12%nat, 16%nat.
  split; [exact shock_period_start_dates|].
  split; [exact shock_period_end_dates|].
  split; apply list_elem_of_lookup; [exists 12%nat|exists 16%nat];
    vm_compute; reflexivity. }
destruct (Hrun dates Hdates) as [Hg Hr].
destruct Hdates as (_ & _ & _ & _ & D1 & D2).
repeat split; try apply A1; try apply A2; try apply A3; try apply A4;
  assumption.
Qed.

(** ** Missing values *)

Lemma count_nan_zero (l : list float) :
  Forall (fun x => PrimFloat.is_nan x = false) l ->
  length (List.filter PrimFloat.is_nan l) = 0%nat.
Proof.
induction 1 as [|x l Hx _ IH]; simpl; [reflexivity|]. now rewrite Hx.
Qed.

Lemma shock_size_finite : PrimFloat.is_finite (flit (45 # 10)) = true.
Proof. vm_compute. reflexivity. Qed.

(** Finite draws give a growth column without NaN, whatever the shock
    window: rounding may overflow to an infinity but not to NaN. *)
Lemma growth_values_not_nan (w : world) (n s e : nat) :
  (forall k, (k < 2 * n)%nat -> PrimFloat.is_finite (rng w k) = true) ->
  Forall (fun x => PrimFloat.is_nan x = false)
    (zip_with PrimFloat.add
       (np.slice_isub (baseline_draws w n) s e (flit (45 # 10)))
       (noise_draws w n)).
Proof.
intros Hfin. apply Forall_lookup_2. intros i z Hz.
apply lookup_zip_with_Some in Hz as (x & y & -> & Hx & Hy).
rewrite slice_isub_lookup in Hx.
unfold baseline_draws, noise_draws in *.
rewrite list_lookup_fmap in Hx. rewrite list_lookup_fmap in Hy.
destruct (seq 0 n !! i) as [k|] eqn:Hk; [|discriminate].
apply lookup_seq in Hk as [-> Hlt]. simpl in Hx, Hy.
injection Hx as <-. injection Hy as <-.
apply F64.add_not_nan; [|apply Hfin; lia].
destruct (_ && _).
- apply F64.sub_not_nan; [|exact shock_size_finite].
  apply F64.finite_not_nan, Hfin. lia.
- apply F64.finite_not_nan, Hfin. lia.
Qed.

Lemma format_int_0 : format_int 0 = "0"%string.
Proof. reflexivity. Qed.

(** C5. In every run whose draws are finite numbers the table has no
    missing value, and the reporter prints a missing-value count of 0. *)
Theorem no_missing_values (R : pd.Reductions) (w : world) :
  (forall k, (k < 2 * n_points)%nat -> PrimFloat.is_finite (rng w k) = true) ->
  exists frame,
    df (fst (generator w)) = Some frame
    /\ df (fst (script w)) = Some frame
    /\ pd.isnull_sum_sum frame = 0%nat
    /\ Text (nl ++ "Missing values check: 0") ∈ stdout (fst (script w)).
Proof.
intros Hfin.
destruct (script_ok w) as (frame & col & Hg & _ & _ & Hd & Hout).
exists frame. split; [exact Hg|]. split; [exact Hd|].
assert (Hnull : pd.isnull_sum_sum frame = 0%nat).
{ unfold generator in Hg.
  rewrite (generator_on_ok dates 12 16 w shock_period_start_dates
             shock_period_end_dates) in Hg.
  cbn [fst df] in Hg. apply (inj Some) in Hg. subst frame.
  unfold pd.isnull_sum_sum. cbn [pd.df_columns map snd pd.count_null list_sum].
  rewrite count_nan_zero; [reflexivity|].
  apply growth_values_not_nan. exact Hfin. }
split; [exact Hnull|].
rewrite Hout, Hnull, format_int_0.
apply elem_of_app. right. do 4 apply list_elem_of_further. apply list_elem_of_here.
Qed.

Lemma no_missing_values_steady :
  exists frame,
    df (fst (generator steady)) = Some frame
    /\ df (fst (@script textbook steady)) = Some frame
    /\ pd.isnull_sum_sum frame = 0%nat
    /\ Text (nl ++ "Missing values check: 0")
       ∈ stdout (fst (@script textbook steady)).
Proof.
apply (no_missing_values textbook steady). intros k _. reflexivity.
Defined.

(** ** The reporter *)

(** C6. The reporter only reads: it leaves the table (and the random
    source and the figure) as they were, and a second run on the same
    table ends the same way and writes the same output again. *)
Theorem reporter_idempotent (R : pd.Reductions) (w : world) :
  let w1 := fst (reporter w) in
  let w2 := fst (reporter w1) in
  df w1 = df w /\ df w2 = df w
  /\ rng w2 = rng w /\ figure w2 = figure w
  /\ snd (reporter w1) = snd (reporter w)
  /\ exists out, stdout w1 = stdout w ++ out /\ stdout w2 = stdout w1 ++ out.
Proof.
intros w1 w2. unfold w2, w1.
destruct (reporter_reads_df (df w)) as (out & res & Hrun).
rewrite (Hrun w eq_refl). cbn [fst snd].
rewrite Hrun by reflexivity. cbn [fst snd rng stdout figure df].
repeat split; try reflexivity. exists out. split; reflexivity.
Qed.

(** C7. A run ends normally and writes seven things to standard output,
    in this order: the generation notice, the size notice, the heading
    and the table of the statistics block, the missing-value count, the
    index-type boolean, and the completion notice. *)
Theorem script_output (R : pd.Reductions) (w : world) :
  exists (frame : pd.DataFrame) (col : pd.column),
    snd (script w) = inr tt
    /\ df (fst (script w)) = Some frame
    /\ pd.getitem frame "GDP_Growth_Rate" = inr col
    /\ stdout (fst (script w))
       = stdout w
         ++ [Text "Generating dummy Quarterly GDP Growth Data...";
             Text "DataFrame created with 24 quarterly observations.";
             Text (nl ++ "--- Descriptive Statistics (GDP Growth Rate) ---");
             Summary (pd.describe col);
             Text (nl ++ "Missing values check: "
                   ++ format_int (pd.isnull_sum_sum frame));
             Text "Index type check: The data is time-series indexed: True";
             Text (nl ++ "EDA complete. The visualization clearly shows the simulated shock and recovery period, ready for deeper statistical modeling in R.")]
    /\ length (stdout (fst (script w))) = (length (stdout w) + 7)%nat.
Proof.
destruct (script_ok w) as (frame & col & _ & Hcol & Hres & Hd & Hout).
exists frame, col. repeat split; try assumption.
rewrite Hout, length_app. reflexivity.
Qed.

(** A run does not write exactly five things. *)
Lemma five_messages_fails : ~ @five_messages textbook steady.
Proof.
unfold five_messages.
destruct (@script_ok textbook steady) as (frame & col & _ & _ & _ & _ & ->).
rewrite length_app. simpl. lia.
Qed.

(** C9 (as amended). Given a table with exactly one row whose value is
    a finite number, the reporter does not fail: the count is 1, the
    missing-value count is 0, and the minimum, the maximum and the 25th,
    50th and 75th percentiles all equal the single value. *)
Theorem reporter_one_row (R : pd.Reductions) (d : date) (v : float) :
  PrimFloat.is_finite v = true -> one_row_report d v.
Proof.
intros Hfin w Hw.
pose proof (F64.finite_not_nan v Hfin) as Hnan.
assert (Heq : PrimFloat.eqb v v = true).
{ unfold PrimFloat.is_nan in Hnan. now apply negb_false_iff in Hnan. }
assert (Hcol : pd.getitem (one_row d v) "GDP_Growth_Rate"
               = inr (pd.Float64Col [v])) by reflexivity.
rewrite (reporter_ok w _ _ Hw Hcol). cbn [fst snd stdout].
split; [reflexivity|].
assert (Hnull : pd.isnull_sum_sum (one_row d v) = 0%nat).
{ unfold pd.isnull_sum_sum, one_row. simpl. now rewrite Hnan. }
assert (Hdrop : pd.dropna [v] = [v]).
{ unfold pd.dropna. simpl. now rewrite Hnan. }
assert (Hq : forall q, In q [1 # 4; 1 # 2; 3 # 4]%Q ->
             PrimFloat.eqb (pd.quantile [v] q) v = true).
{ intros q Hq.
  assert (Hv : pd.quantile [v] q
               = PrimFloat.add v
                   (PrimFloat.mul (PrimFloat.sub v v) PrimFloat.zero)).
  { simpl in Hq. destruct Hq as [<-|[<-|[<-|[]]]]; reflexivity. }
  rewrite Hv. now apply F64.lerp_diag. }
rewrite Hnull. unfold pd.describe. rewrite Hdrop.
do 7 eexists. split; [reflexivity|].
simpl pd.fmin. simpl pd.fmax.
repeat split; try exact Heq; apply Hq; simpl; auto.
Qed.

Lemma reporter_one_row_five :
  @one_row_report textbook (mkdate 2005 1 1) 5%float.
Proof. apply (reporter_one_row textbook (mkdate 2005 1 1) 5%float). reflexivity. Defined.

(** On any one-row table the reporter ends normally. *)
Lemma reporter_one_row_total (R : pd.Reductions) (d : date) (v : float)
    (w : world) :
  df w = Some (one_row d v) -> snd (reporter w) = inr tt.
Proof.
intros Hw.
now rewrite (reporter_ok w (one_row d v) (pd.Float64Col [v]) Hw eq_refl).
Qed.

(** A one-row table whose value is missing: the count is 0, not 1. *)
Lemma one_row_report_nan :
  ~ @one_row_report textbook (mkdate 2005 1 1) PrimFloat.nan.
Proof.
intros Hc.
destruct (Hc (mkworld (fun _ => 5%float) [] [] (Some (one_row (mkdate 2005 1 1) PrimFloat.nan)))
             eq_refl)
  as (_ & mean & std & mn & q25 & q50 & q75 & mx & Hout & _).
apply (f_equal (fun l => summary_count (l !! 1%nat))) in Hout.
vm_compute in Hout. discriminate Hout.
Qed.

(** ** The shock on the baseline and the means of its values *)

Section Windows.
Context {F : Type} `{Scalar F}.

Lemma window_slice_isub (l : list F) (s e : nat) (c : F) :
  window s e (np.slice_isub l s e c) = map (fun x => fsub x c) (window s e l).
Proof.
apply list_eq. intros i. unfold window.
rewrite list_lookup_fmap, !lookup_take.
destruct (decide (i < e - s)%nat) as [Hi|Hi]; [|reflexivity].
rewrite !lookup_drop, slice_isub_lookup.
replace ((s <=? s + i)%nat && (s + i <? e)%nat) with true; [reflexivity|].
symmetry. apply andb_true_iff. split.
- apply Nat.leb_le. lia.
- apply Nat.ltb_lt. lia.
Qed.

Lemma outside_slice_isub (l : list F) (s e : nat) (c : F) :
  (s <= e)%nat ->
  outside s e (np.slice_isub l s e c) = outside s e l.
Proof.
intros Hse. unfold outside. f_equal.
- apply list_eq. intros i. rewrite !lookup_take.
  destruct (decide (i < s)%nat) as [Hi|Hi]; [|reflexivity].
  rewrite slice_isub_lookup.
  replace (s <=? i)%nat with false by (symmetry; apply Nat.leb_gt; lia).
  simpl. now destruct (l !! i).
- apply list_eq. intros i. rewrite !lookup_drop, slice_isub_lookup.
  replace (e + i <? e)%nat with false by (symmetry; apply Nat.ltb_ge; lia).
  rewrite andb_false_r. now destruct (l !! (e + i)%nat).
Qed.

End Windows.

(** Binary64 subtraction that does not round. *)

Lemma digits2_pos_bounds (p : positive) :
  2 ^ (Zpos (digits2_pos p) - 1) <= Zpos p < 2 ^ Zpos (digits2_pos p).
Proof.
induction p as [p IH|p IH|]; cbn [digits2_pos].
- rewrite Pos2Z.inj_succ. replace (Z.succ (Zpos (digits2_pos p)) - 1) with (Z.succ (Zpos (digits2_pos p) - 1)) by lia.
  rewrite !Z.pow_succ_r by lia. lia.
- rewrite Pos2Z.inj_succ. replace (Z.succ (Zpos (digits2_pos p)) - 1) with (Z.succ (Zpos (digits2_pos p) - 1)) by lia.
  rewrite !Z.pow_succ_r by lia. lia.
- simpl. lia.
Qed.

Lemma digits2_pos_le (p : positive) (n : Z) :
  0 <= n -> Zpos p < 2 ^ n -> Zpos (digits2_pos p) <= n.
Proof.
intros Hn Hp. destruct (digits2_pos_bounds p) as [Hlo _].
destruct (Z_le_gt_dec (Zpos (digits2_pos p)) n) as [H|H]; [exact H|].
exfalso. assert (2 ^ n <= 2 ^ (Zpos (digits2_pos p) - 1)) by (apply Z.pow_le_mono_r; lia).
lia.
Qed.

Lemma digits2_iter_xO (p d : positive) :
  digits2_pos (Pos.iter xO p d) = (digits2_pos p + d)%positive.
Proof.
induction d as [|d IH] using Pos.peano_ind.
- simpl. lia.
- rewrite Pos.iter_succ. cbn [digits2_pos]. rewrite IH. lia.
Qed.

Lemma Zpos_iter_xO (p d : positive) :
  Zpos (Pos.iter xO p d) = Zpos p * 2 ^ Zpos d.
Proof.
induction d as [|d IH] using Pos.peano_ind.
- simpl. lia.
- rewrite Pos.iter_succ, Pos2Z.inj_xO, IH, Pos2Z.inj_succ, Z.pow_succ_r by lia. lia.
Qed.

Lemma shr_fexp_canonical (mz : positive) (ez : Z) :
  digits2_pos mz = 53%positive -> -1074 <= ez ->
  shr_fexp prec emax (Zpos mz) ez loc_Exact
  = ({| shr_m := Zpos mz; shr_r := false; shr_s := false |}, ez).
Proof.
intros Hd He. unfold shr_fexp. cbn [Zdigits2 shr_record_of_loc]. rewrite Hd.
replace (fexp prec emax (53 + ez) - ez) with 0
  by (unfold fexp, SpecFloat.emin, prec, emax; lia).
reflexivity.
Qed.

Lemma binary_round_aux_canonical (s : bool) (mz : positive) (ez : Z) :
  digits2_pos mz = 53%positive -> -1074 <= ez <= 971 ->
  binary_round_aux prec emax s (Zpos mz) ez loc_Exact = S754_finite s mz ez.
Proof.
intros Hd He. unfold binary_round_aux.
rewrite (shr_fexp_canonical mz ez Hd) by lia.
cbn [shr_m loc_of_shr_record round_nearest_even].
rewrite (shr_fexp_canonical mz ez Hd) by lia.
cbn [shr_m].
replace (ez <=? emax - prec) with true; [reflexivity|].
symmetry. apply Z.leb_le. unfold emax, prec. lia.
Qed.

Lemma binary_round_exact (s : bool) (p : positive) (e : Z) :
  Zpos p < 2 ^ 53 -> -1000 <= e <= 900 ->
  exists mz ez,
    binary_round prec emax s p e = S754_finite s mz ez
    /\ ez <= e /\ -1074 <= ez /\ Zpos mz = Zpos p * 2 ^ (e - ez).
Proof.
intros Hp He. unfold binary_round.
pose proof (digits2_pos_le p 53 ltac:(lia) Hp) as HD.
assert (HD1 : 1 <= Zpos (digits2_pos p)) by lia.
set (D := digits2_pos p) in *.
assert (Hf : fexp prec emax (Zpos D + e) = Zpos D + e - 53)
  by (unfold fexp, SpecFloat.emin, prec, emax; lia).
rewrite Hf. unfold shl_align.
destruct (Zpos D + e - 53 - e) as [|d|d] eqn:Hsub.
- assert (HD53 : D = 53%positive) by lia.
  exists p, e. rewrite binary_round_aux_canonical by (assumption || lia).
  repeat split; try lia. rewrite Z.sub_diag. simpl. lia.
- lia.
- assert (Hd : Zpos D + Zpos d = 53) by lia.
  exists (Pos.iter xO p d), (Zpos D + e - 53).
  rewrite binary_round_aux_canonical.
  + repeat split; try lia. rewrite Zpos_iter_xO. f_equal. f_equal. lia.
  + rewrite digits2_iter_xO. fold D. lia.
  + lia.
Qed.

Lemma Qpower_2_split (a b : Z) : (Qpower 2 (a + b) == Qpower 2 a * Qpower 2 b)%Q.
Proof. apply Qpower_plus. discriminate. Qed.

Lemma SF2Q_scaled (s : bool) (p mz : positive) (e ez : Z) :
  ez <= e -> Zpos mz = Zpos p * 2 ^ (e - ez) ->
  (SF2Q (S754_finite s mz ez)
   == inject_Z (if s then Zneg p else Zpos p) * Qpower 2 e)%Q.
Proof.
intros Hle Hm. unfold SF2Q.
assert (H2 : (Qpower 2 e == Qpower 2 (e - ez) * Qpower 2 ez)%Q).
{ rewrite <- Qpower_2_split. replace (e - ez + ez) with e by lia. reflexivity. }
assert (Hpow : (Qpower 2 (e - ez) == inject_Z (2 ^ (e - ez)))%Q).
{ rewrite Zpower_Qpower by lia. reflexivity. }
assert (Hz : (if s then Zneg mz else Zpos mz)
             = (if s then Zneg p else Zpos p) * 2 ^ (e - ez)).
{ destruct s; [|exact Hm]. rewrite <- !Pos2Z.opp_pos, Hm. lia. }
rewrite H2, Hpow, Hz, inject_Z_mult. ring.
Qed.

Lemma binary_normalize_exact (m e : Z) :
  Z.abs m < 2 ^ 53 -> -1000 <= e <= 900 ->
  (SF2Q (binary_normalize prec emax m e false) == inject_Z m * Qpower 2 e)%Q.
Proof.
intros Hm He. destruct m as [|p|p]; cbn [binary_normalize].
- simpl. ring.
- destruct (binary_round_exact false p e) as (mz & ez & -> & Hle & _ & Hz); [lia|lia|].
  exact (SF2Q_scaled false p mz e ez Hle Hz).
- destruct (binary_round_exact true p e) as (mz & ez & -> & Hle & _ & Hz); [lia|lia|].
  exact (SF2Q_scaled true p mz e ez Hle Hz).
Qed.

Lemma SFcompare_positive (m1 m2 : positive) (e1 e2 : Z) :
  SFcompare (S754_finite false m1 e1) (S754_finite false m2 e2)
  = Some match Z.compare e1 e2 with
         | Lt => Lt
         | Gt => Gt
         | Eq => Pos.compare m1 m2
         end.
Proof. reflexivity. Qed.

Lemma valid_finite (m : positive) (e : Z) :
  valid_binary (S754_finite false m e)
  = Z.eqb (fexp prec emax (Zpos (digits2_pos m) + e)) e && Z.leb e (emax - prec).
Proof. reflexivity. Qed.

Lemma exact_range_spec (x : float) :
  exact_range x = true ->
  exists mx ex,
    Prim2SF x = S754_finite false mx ex
    /\ -51 <= ex <= -50
    /\ 4503599627370496 <= Zpos mx < 9007199254740992.
Proof.
unfold exact_range. rewrite andb_true_iff, leb_spec, ltb_spec.
change (Prim2SF 2) with (S754_finite false 4503599627370496 (-51)).
change (Prim2SF 8) with (S754_finite false 4503599627370496 (-49)).
pose proof (Prim2SF_valid x) as Hval.
destruct (Prim2SF x) as [s|s| |s m e]; intros [Hle Hlt].
- destruct s; discriminate Hle.
- destruct s; [discriminate Hle|discriminate Hlt].
- discriminate Hle.
- destruct s; [discriminate Hle|].
  unfold SFleb in Hle. unfold SFltb in Hlt. rewrite SFcompare_positive in Hle, Hlt.
  rewrite valid_finite in Hval.
  apply andb_true_iff in Hval as [Hc _]. apply Z.eqb_eq in Hc.
  pose proof (digits2_pos_bounds m) as Hb.
  exists m, e. split; [reflexivity|].
  assert (He1 : -51 <= e).
  { destruct (Z.compare_spec (-51) e); first [lia | discriminate Hle]. }
  assert (He2 : e <= -49).
  { destruct (Z.compare_spec e (-49)); first [lia | discriminate Hlt]. }
  assert (HD : Zpos (digits2_pos m) = 53)
    by (unfold fexp, SpecFloat.emin, prec, emax in Hc; lia).
  rewrite HD in Hb. change (2 ^ (53 - 1)) with 4503599627370496 in Hb.
  change (2 ^ 53) with 9007199254740992 in Hb.
  split; [|exact Hb]. split; [exact He1|].
  destruct (Z.compare_spec e (-49)) as [Heq|Hl|Hg]; [|lia|discriminate Hlt].
  exfalso. destruct (Pos.compare_spec m 4503599627370496) as [?|Hm|?];
    try discriminate Hlt.
  apply Pos2Z.pos_lt_pos in Hm. lia.
Qed.

Lemma sub_exact_at (mx : positive) (ex K : Z) (y : spec_float) :
  SF64sub (S754_finite false mx ex) y
  = binary_normalize prec emax (Zpos mx - K) ex false ->
  Z.abs (Zpos mx - K) < 2 ^ 53 -> -1000 <= ex <= 900 ->
  (inject_Z (- K) * Qpower 2 ex == - (45 # 10))%Q ->
  (SF2Q (SF64sub (S754_finite false mx ex) y)
   == SF2Q (S754_finite false mx ex) - (45 # 10))%Q.
Proof.
intros -> Hm He Hc.
etransitivity; [apply binary_normalize_exact; assumption|].
unfold SF2Q, Z.sub. rewrite inject_Z_plus.
transitivity (inject_Z (Zpos mx) * Qpower 2 ex
              + inject_Z (- K) * Qpower 2 ex)%Q; [ring|].
rewrite Hc. ring.
Qed.

Lemma sub_shock_exact (x : float) :
  exact_range x = true ->
  (F2Q (PrimFloat.sub x 4.5) == F2Q x - (45 # 10))%Q.
Proof.
intros Hx. destruct (exact_range_spec x Hx) as (mx & ex & Hsf & He & Hm).
unfold F2Q. rewrite sub_spec, Hsf.
change (Prim2SF 4.5) with (S754_finite false 5066549580791808 (-50)).
assert (Hex : ex = -51 \/ ex = -50) by lia.
destruct Hex as [-> | ->].
- apply (sub_exact_at mx (-51) 10133099161583616);
    [reflexivity|change (2 ^ 53) with 9007199254740992; lia|lia|reflexivity].
- apply (sub_exact_at mx (-50) 5066549580791808);
    [reflexivity|change (2 ^ 53) with 9007199254740992; lia|lia|reflexivity].
Qed.

Lemma window_map {A B : Type} (f : A -> B) (s e : nat) (l : list A) :
  window s e (map f l) = map f (window s e l).
Proof. unfold window. now rewrite skipn_map, firstn_map. Qed.

Lemma outside_map {A B : Type} (f : A -> B) (s e : nat) (l : list A) :
  outside s e (map f l) = map f (outside s e l).
Proof. unfold outside. now rewrite map_app, skipn_map, firstn_map. Qed.

Lemma Qsum_shocked (l : list float) :
  Forall (fun x => exact_range x = true) l ->
  (Qsum (map F2Q (map (fun x => fsub x (flit (45 # 10))) l))
   == Qsum (map F2Q l) - inject_Z (Z.of_nat (length l)) * (45 # 10))%Q.
Proof.
induction 1 as [|x l Hx _ IH].
- simpl. ring.
- cbn [map Qsum fold_right length].
  fold (Qsum (map F2Q (map (fun x => fsub x (flit (45 # 10))) l))).
  fold (Qsum (map F2Q l)).
  change (fsub x (flit (45 # 10))) with (PrimFloat.sub x 4.5).
  rewrite IH, (sub_shock_exact x Hx), Nat2Z.inj_succ.
  unfold Z.succ. rewrite inject_Z_plus. ring.
Qed.

Lemma Qmean_shocked (l : list float) :
  l <> [] -> Forall (fun x => exact_range x = true) l ->
  (Qmean (map F2Q (map (fun x => fsub x (flit (45 # 10))) l))
   == Qmean (map F2Q l) - (45 # 10))%Q.
Proof.
intros Hl Hx. unfold Qmean. rewrite !length_map, (Qsum_shocked l Hx).
assert (Hn : ~ (inject_Z (Z.of_nat (length l)) == 0)%Q).
{ destruct l as [|x l']; [contradiction|].
  unfold Qeq. simpl. lia. }
field. exact Hn.
Qed.

(** C4 (as amended). For every sequence of 24 finite baseline draws
    whose four shock-window draws lie from 2 up to 8, where binary64
    subtracts 4.5 without rounding, the gap between the window mean and
    the outside mean of the baseline after the shock is the gap of the
    raw draws less 4.5; it lies within 1.5 of -4.5 exactly when the
    window mean and the outside mean of the raw draws are within 1.5 of
    each other.  The series is the binary64 array of the script and the
    means are the exact means of its values. *)
Theorem shock_gap_shift (draws : list float) :
  length draws = n_points ->
  Forall (fun x => PrimFloat.is_finite x = true) draws ->
  Forall (fun x => exact_range x = true) (window 12 16 draws) ->
  exists b,
    baseline_growth dates draws = inr b
    /\ (shock_gap 12 16 (map F2Q b)
        == shock_gap 12 16 (map F2Q draws) - (45 # 10))%Q
    /\ (shock_property draws
        <-> (- (15 # 10) <= shock_gap 12 16 (map F2Q draws)
             /\ shock_gap 12 16 (map F2Q draws) <= 15 # 10)%Q).
Proof.
intros Hlen _ Hrange.
assert (Hb : baseline_growth dates draws
             = inr (np.slice_isub draws 12 16 (flit (45 # 10))))
  by (apply baseline_growth_inr;
      [exact shock_period_start_dates|exact shock_period_end_dates]).
assert (Hgap : (shock_gap 12 16
                  (map F2Q (np.slice_isub draws 12 16 (flit (45 # 10))))
                == shock_gap 12 16 (map F2Q draws) - (45 # 10))%Q).
{ unfold shock_gap. rewrite !window_map, !outside_map.
  rewrite window_slice_isub, outside_slice_isub by lia.
  rewrite Qmean_shocked; [ring| |exact Hrange].
  intros Hnil. apply (f_equal length) in Hnil.
  unfold window in Hnil. rewrite length_take, length_drop, Hlen in Hnil.
  vm_compute in Hnil. discriminate. }
eexists. split; [exact Hb|]. split; [exact Hgap|].
unfold shock_property. split.
- intros (s & e & b & Hs & He & Hb' & Hlo & Hhi).
  rewrite shock_period_start_dates in Hs. rewrite shock_period_end_dates in He.
  apply (inj inr) in Hs, He. subst s e.
  rewrite Hb in Hb'. apply (inj inr) in Hb'. subst b.
  lra.
- intros [Hlo Hhi]. exists 12%nat, 16%nat. eexists.
  split; [exact shock_period_start_dates|].
  split; [exact shock_period_end_dates|].
  split; [exact Hb|]. lra.
Qed.

Lemma shock_gap_shift_high_window :
  exists b,
    baseline_growth dates high_window_f64 = inr b
    /\ (shock_gap 12 16 (map F2Q b)
        == shock_gap 12 16 (map F2Q high_window_f64) - (45 # 10))%Q
    /\ (shock_property high_window_f64
        <-> (- (15 # 10) <= shock_gap 12 16 (map F2Q high_window_f64)
             /\ shock_gap 12 16 (map F2Q high_window_f64) <= 15 # 10)%Q).
Proof.
apply (shock_gap_shift high_window_f64).
- vm_compute. reflexivity.
- vm_compute. repeat constructor.
- vm_compute. repeat constructor.
Defined.

(** Draws of 6 inside the window and 4.25 outside: after the shock the
    window mean is 1.5 and the outside mean 4.25, a gap of -2.75, which is
    not within 1.5 of -4.5. *)
Lemma shock_property_high_window : ~ shock_property high_window_f64.
Proof.
intros (s & e & b & Hs & He & Hb & Hlo & Hhi).
rewrite shock_period_start_dates in Hs. rewrite shock_period_end_dates in He.
apply (inj inr) in Hs, He. subst s e.
assert (Hb' : baseline_growth dates high_window_f64
              = inr (np.slice_isub high_window_f64 12 16 (flit (45 # 10))))
  by (apply baseline_growth_inr;
      [exact shock_period_start_dates|exact shock_period_end_dates]).
rewrite Hb' in Hb. apply (inj inr) in Hb. subst b.
vm_compute in Hhi. apply Hhi. reflexivity.
Qed.

(** ** Worked examples *)

(** A start inside a quarter is rolled forward to the next quarter
    start; an end on a quarter start is included. *)
Example date_range_mid_quarter :
  date_range_QS (mkdate 2005 2 15) (mkdate 2006 1 1)
  = [mkdate 2005 4 1; mkdate 2005 7 1; mkdate 2005 10 1; mkdate 2006 1 1].
Proof. vm_compute. reflexivity. Qed.

(** An axis that stops in 2008 has no 2009-01-01: the generator prints
    its first notice and ends in [IndexError], leaving [df] unbound. *)
Example generator_short_axis :
  let run := generator_on (pd.date_range (mkdate 2005 1 1) (mkdate 2008 6 30))
               steady in
  snd run = inl IndexError
  /\ df (fst run) = None
  /\ stdout (fst run) = [Text "Generating dummy Quarterly GDP Growth Data..."].
Proof. vm_compute. repeat split; reflexivity. Qed.

(** The sample draws in binary64: 6 - 4.5 is 1.5 exactly. *)
Example baseline_high_window_f64 :
  baseline_growth dates high_window_f64
  = inr (replicate 12 4.25%float ++ replicate 4 1.5%float
         ++ replicate 8 4.25%float).
Proof. vm_compute. reflexivity. Qed.

Example gap_high_window :
  exists b, baseline_growth dates high_window_f64 = inr b
            /\ (shock_gap 12 16 (map F2Q b) == - (275 # 100))%Q.
Proof. eexists. split; [vm_compute; reflexivity|]. vm_compute. reflexivity. Qed.

(** Outside the range the subtraction rounds: 0.1 - 4.5 in binary64 is
    not the exact difference of the two binary64 numbers. *)
Example sub_rounds_small :
  ~ (F2Q (PrimFloat.sub (flit (1 # 10)) 4.5)
     == F2Q (flit (1 # 10)) - (45 # 10))%Q.
Proof. vm_compute. discriminate. Qed.

(** Between two values from the fraction one half on, numpy interpolates
    from the upper value. *)
Example quantile_upper_half :
  pd.quantile [flit (1 # 10); flit (7 # 10); 5%float; 9%float] (1 # 2)
  = PrimFloat.sub 5 (PrimFloat.mul (PrimFloat.sub 5 (flit (7 # 10))) 0.5).
Proof. vm_compute. reflexivity. Qed.

(** What the reporter prints for a one-row table whose value is NaN. *)
Example report_nan_row :
  stdout (fst (@reporter textbook
                 (mkworld (fun _ => 5%float) [] []
                    (Some (one_row (mkdate 2005 1 1) PrimFloat.nan)))))
  = [Text (nl ++ "--- Descriptive Statistics (GDP Growth Rate) ---");
     Summary (pd.NumericSummary 0 PrimFloat.nan PrimFloat.nan PrimFloat.nan
                PrimFloat.nan PrimFloat.nan PrimFloat.nan PrimFloat.nan);
     Text (nl ++ "Missing values check: 1");
     Text "Index type check: The data is time-series indexed: True"].
Proof. vm_compute. reflexivity. Qed.

(** Interpolating an infinite value with itself: [inf - inf] is NaN. *)
Example quantile_infinity :
  pd.quantile [PrimFloat.infinity] (1 # 2) = PrimFloat.nan.
Proof. vm_compute. reflexivity. Qed.

(** Quartiles of four values by linear interpolation. *)
Example quantile_four :
  pd.quantile [1%float; 2%float; 4%float; 3%float] (1 # 4) = 1.75%float.
Proof. vm_compute. reflexivity. Qed.


(** * Further properties of the script *)

(** ** The state a run ends in *)

Section FinalState.
Context `{pd.Reductions}.

(** The whole state after a run on an axis that holds both shock dates. *)
Lemma script_on_state (axis : list date) (s e : nat) (w : world) :
  shock_period_start axis = inr s -> shock_period_end axis = inr e ->
  let n := length axis in
  let col :=
    pd.Float64Col
      (zip_with PrimFloat.add
         (np.slice_isub (baseline_draws w n) s e (flit (45 # 10)))
         (noise_draws w n)) in
  let frame :=
    pd.mkDataFrame (pd.DatetimeIndex axis)
      [("GDP_Growth_Rate"%string, col)] in
  script_on axis w
  = (mkworld (fun k => rng w (n + (n + k))%nat)
       (stdout w
        ++ [Text "Generating dummy Quarterly GDP Growth Data...";
            Text ("DataFrame created with " ++ format_int n
                  ++ " quarterly observations.");
            Text (nl ++ "--- Descriptive Statistics (GDP Growth Rate) ---");
            Summary (pd.describe col);
            Text (nl ++ "Missing values check: "
                  ++ format_int (pd.isnull_sum_sum frame));
            Text "Index type check: The data is time-series indexed: True";
            Text (nl ++ "EDA complete. The visualization clearly shows the simulated shock and recovery period, ready for deeper statistical modeling in R.")])
       (figure w ++ chart (pd.DatetimeIndex axis) col)
       (Some frame),
     inr tt).
Proof.
intros Hs He n col frame.
pose proof (generator_on_ok axis s e w Hs He) as Hg. cbv zeta in Hg.
fold n in Hg. fold col in Hg. fold frame in Hg.
assert (Hcol : pd.getitem frame "GDP_Growth_Rate" = inr col) by reflexivity.
unfold script_on, mbind, M_bind, bind.
rewrite Hg.
erewrite reporter_ok; [|reflexivity|exact Hcol].
cbn [rng stdout figure df].
erewrite renderer_ok; [|reflexivity|exact Hcol].
cbn [rng stdout figure df]. unfold chart.
rewrite <- !app_assoc. reflexivity.
Qed.

End FinalState.

(** X1. When a shock date is missing from the axis the run ends in
    [IndexError] after the generation notice alone: [df] is not assigned,
    nothing is drawn, and only the baseline batch of variates has been
    taken from the random source. *)
Theorem failed_run_state (R : pd.Reductions) (axis : list date) (w : world) :
  pd.to_datetime 2008 1 1 ∉ axis \/ pd.to_datetime 2009 1 1 ∉ axis ->
  script_on axis w
  = (mkworld (fun k => rng w (length axis + k)%nat)
       (stdout w ++ [Text "Generating dummy Quarterly GDP Growth Data..."])
       (figure w) (df w),
     inl IndexError).
Proof.
intros Habs. destruct (script_on_fail axis w Habs) as [-> _].
now apply generator_on_fail.
Qed.

Lemma failed_run_state_short_axis :
  @script_on textbook short_axis steady
  = (mkworld (fun k => rng steady (length short_axis + k)%nat)
       (stdout steady ++ [Text "Generating dummy Quarterly GDP Growth Data..."])
       (figure steady) (df steady),
     inl IndexError).
Proof.
apply (failed_run_state textbook short_axis steady).
right. apply locate_fails_iff. vm_compute. reflexivity.
Defined.

(** X3. A run takes exactly two batches of [n_points] variates from the
    random source, both in the generator: the reporter and the renderer
    draw none. *)
Theorem run_consumes_two_batches (R : pd.Reductions) (w : world) (k : nat) :
  rng (fst (generator w)) k = rng w (2 * n_points + k)%nat
  /\ rng (fst (script w)) k = rng w (2 * n_points + k)%nat.
Proof.
unfold script, generator.
rewrite (script_on_state dates 12 16 w shock_period_start_dates
           shock_period_end_dates).
rewrite (generator_on_ok dates 12 16 w shock_period_start_dates
           shock_period_end_dates).
cbn [fst rng]. fold n_points. split; f_equal; lia.
Qed.

(** X4. In every run the figure receives the twelve calls of section 3
    in order, after whatever it held; the line is plotted over the 24
    dates of the index against the 24 values of the growth column. *)
Theorem run_chart (R : pd.Reductions) (w : world) :
  exists values,
    growth_column w = Some values
    /\ length values = length dates
    /\ figure (fst (script w))
       = figure w ++ chart (pd.DatetimeIndex dates) (pd.Float64Col values).
Proof.
unfold script, growth_column, generator.
rewrite (script_on_state dates 12 16 w shock_period_start_dates
           shock_period_end_dates).
rewrite (generator_on_ok dates 12 16 w shock_period_start_dates
           shock_period_end_dates).
cbn [fst figure df]. eexists. split; [reflexivity|]. split; [|reflexivity].
destruct (draws_length w (length dates)) as [Hb Hn].
rewrite length_zip_with, slice_isub_length, Hb, Hn. lia.
Qed.

(** X11. On any axis that holds both shock dates the generator ends
    normally with a table indexed by that axis, holding one growth value
    per date, and its size notice reports the number of dates. *)
Theorem table_matches_axis (axis : list date) (w : world) :
  pd.to_datetime 2008 1 1 ∈ axis -> pd.to_datetime 2009 1 1 ∈ axis ->
  exists values,
    snd (generator_on axis w) = inr tt
    /\ df (fst (generator_on axis w))
       = Some (pd.mkDataFrame (pd.DatetimeIndex axis)
                 [("GDP_Growth_Rate"%string, pd.Float64Col values)])
    /\ length values = length axis
    /\ stdout (fst (generator_on axis w))
       = stdout w
         ++ [Text "Generating dummy Quarterly GDP Growth Data...";
             Text ("DataFrame created with " ++ format_int (length axis)
                   ++ " quarterly observations.")].
Proof.
intros H1 H2.
destruct (shock_dates_cases axis) as [(s & e & Hs & He & _)|[Hn|Hn]];
  [|contradiction|contradiction].
rewrite (generator_on_ok axis s e w Hs He). cbn [fst snd df stdout].
eexists. split; [reflexivity|]. split; [reflexivity|]. split; [|reflexivity].
destruct (draws_length w (length axis)) as [Hb Hn].
rewrite length_zip_with, slice_isub_length, Hb, Hn. lia.
Qed.

Lemma table_matches_axis_mid :
  exists values,
    snd (generator_on mid_axis steady) = inr tt
    /\ df (fst (generator_on mid_axis steady))
       = Some (pd.mkDataFrame (pd.DatetimeIndex mid_axis)
                 [("GDP_Growth_Rate"%string, pd.Float64Col values)])
    /\ length values = length mid_axis
    /\ stdout (fst (generator_on mid_axis steady))
       = stdout steady
         ++ [Text "Generating dummy Quarterly GDP Growth Data...";
             Text ("DataFrame created with " ++ format_int (length mid_axis)
                   ++ " quarterly observations.")].
Proof.
apply (table_matches_axis mid_axis steady).
- apply list_elem_of_lookup. exists 4%nat. vm_compute. reflexivity.
- apply list_elem_of_lookup. exists 8%nat. vm_compute. reflexivity.
Defined.

(** ** Values of the growth column *)

Lemma growth_column_eq (w : world) :
  growth_column w
  = Some (zip_with PrimFloat.add
            (np.slice_isub (baseline_draws w n_points) 12 16 (flit (45 # 10)))
            (noise_draws w n_points)).
Proof.
unfold growth_column, generator.
rewrite (generator_on_ok dates 12 16 w shock_period_start_dates
           shock_period_end_dates).
reflexivity.
Qed.

Lemma growth_value_eq (w : world) (i : nat) :
  (i < n_points)%nat ->
  growth_value w i
  = Some (PrimFloat.add
            (if (12 <=? i)%nat && (i <? 16)%nat
             then PrimFloat.sub (rng w i) (flit (45 # 10)) else rng w i)
            (rng w (n_points + i)%nat)).
Proof.
intros Hi. unfold growth_value. rewrite growth_column_eq.
rewrite lookup_zip_with, slice_isub_lookup.
unfold baseline_draws, noise_draws.
rewrite !list_lookup_fmap, lookup_seq_lt by exact Hi. reflexivity.
Qed.

(** X2. The growth value of a date depends on two variates only: the
    baseline draw and the noise draw of its own position.  Two random
    sources that agree on these give the same value there, whatever else
    they hand out. *)
Theorem growth_value_local (w1 w2 : world) (i : nat) :
  (i < n_points)%nat ->
  rng w1 i = rng w2 i ->
  rng w1 (n_points + i)%nat = rng w2 (n_points + i)%nat ->
  growth_value w1 i = growth_value w2 i /\ is_Some (growth_value w1 i).
Proof.
intros Hi Hb Hn. rewrite !growth_value_eq by exact Hi.
rewrite Hb, Hn. split; [reflexivity|]. eexists. reflexivity.
Qed.

Lemma growth_value_local_bumpy :
  growth_value steady 0 = growth_value bumpy 0
  /\ is_Some (growth_value steady 0).
Proof.
apply (growth_value_local steady bumpy 0).
- apply Nat.ltb_lt. vm_compute. reflexivity.
- reflexivity.
- vm_compute. reflexivity.
Defined.

(** ** Missing values and the count *)

Lemma filter_split_length {A : Type} (p : A -> bool) (l : list A) :
  (length (List.filter (fun x => negb (p x)) l) + length (List.filter p l)
   = length l)%nat.
Proof.
induction l as [|x l IH]; simpl; [reflexivity|].
destruct (p x); simpl; lia.
Qed.

Lemma filter_hit_length {A : Type} (p : A -> bool) (l : list A) (i : nat)
    (x : A) :
  l !! i = Some x -> p x = true -> (1 <= length (List.filter p l))%nat.
Proof.
revert i. induction l as [|y l IH]; intros [|i] Hi Hp; simpl in *;
  try discriminate.
- apply (inj Some) in Hi. subst y. rewrite Hp. simpl. lia.
- destruct (p y); simpl; [lia|]. now apply (IH i).
Qed.

(** X9. In every run, whatever the draws, the count shown in the
    statistics table and the missing-value count printed after it add up
    to the 24 rows of the table. *)
Theorem count_plus_missing (R : pd.Reductions) (w : world) :
  exists (c m : nat) (mean std mn q25 q50 q75 mx : float),
    stdout (fst (script w))
    = stdout w
      ++ [Text "Generating dummy Quarterly GDP Growth Data...";
          Text "DataFrame created with 24 quarterly observations.";
          Text (nl ++ "--- Descriptive Statistics (GDP Growth Rate) ---");
          Summary (pd.NumericSummary c mean std mn q25 q50 q75 mx);
          Text (nl ++ "Missing values check: " ++ format_int m);
          Text "Index type check: The data is time-series indexed: True";
          Text (nl ++ "EDA complete. The visualization clearly shows the simulated shock and recovery period, ready for deeper statistical modeling in R.")]
    /\ (c + m = 24)%nat.
Proof.
unfold script.
rewrite (script_on_state dates 12 16 w shock_period_start_dates
           shock_period_end_dates).
cbn [fst stdout]. rewrite size_notice.
set (v := zip_with PrimFloat.add _ _).
assert (Hv : length v = 24%nat).
{ unfold v. destruct (draws_length w (length dates)) as [Hb Hn].
  rewrite length_zip_with, slice_isub_length, Hb, Hn. reflexivity. }
unfold pd.describe, pd.isnull_sum_sum.
cbn [pd.df_columns map snd pd.count_null list_sum fold_right].
do 9 eexists. split; [reflexivity|].
unfold pd.dropna. rewrite Nat.add_0_r, filter_split_length. exact Hv.
Qed.

Lemma nan_add (x y : float) :
  PrimFloat.is_nan x = true \/ PrimFloat.is_nan y = true ->
  PrimFloat.is_nan (PrimFloat.add x y) = true.
Proof.
rewrite !F64.is_nan_spec, add_spec.
destruct (Prim2SF x), (Prim2SF y); simpl; intros [Hn|Hn];
  try discriminate; reflexivity.
Qed.

Lemma nan_sub (x y : float) :
  PrimFloat.is_nan x = true -> PrimFloat.is_nan (PrimFloat.sub x y) = true.
Proof.
rewrite !F64.is_nan_spec, sub_spec.
destruct (Prim2SF x), (Prim2SF y); simpl; intros Hn;
  try discriminate; reflexivity.
Qed.

(** X10. The generator does not check what it draws: a NaN variate, as
    baseline or as noise of a position, becomes a missing value of the
    table at that position. *)
Theorem nan_draw_is_missing (w : world) (i : nat) :
  (i < n_points)%nat ->
  PrimFloat.is_nan (rng w i) = true
  \/ PrimFloat.is_nan (rng w (n_points + i)%nat) = true ->
  exists frame x,
    df (fst (generator w)) = Some frame
    /\ growth_value w i = Some x
    /\ PrimFloat.is_nan x = true
    /\ (1 <= pd.isnull_sum_sum frame)%nat.
Proof.
intros Hi Hnan.
pose proof (growth_value_eq w i Hi) as Hv.
pose proof (growth_column_eq w) as Hc.
unfold growth_value in Hv. rewrite Hc in Hv.
unfold generator.
rewrite (generator_on_ok dates 12 16 w shock_period_start_dates
           shock_period_end_dates).
cbn [fst df]. fold n_points.
assert (Hx : PrimFloat.is_nan
               (PrimFloat.add
                  (if (12 <=? i)%nat && (i <? 16)%nat
                   then PrimFloat.sub (rng w i) (flit (45 # 10)) else rng w i)
                  (rng w (n_points + i)%nat)) = true).
{ apply nan_add. destruct Hnan as [Hb|Hn]; [left|right; exact Hn].
  destruct (_ && _); [now apply nan_sub|exact Hb]. }
do 2 eexists. split; [reflexivity|]. split; [exact Hv|]. split; [exact Hx|].
unfold pd.isnull_sum_sum. cbn [pd.df_columns map snd pd.count_null list_sum fold_right].
rewrite Nat.add_0_r. exact (filter_hit_length _ _ i _ Hv Hx).
Qed.

Lemma nan_draw_is_missing_broken :
  exists frame x,
    df (fst (generator broken)) = Some frame
    /\ growth_value broken 0 = Some x
    /\ PrimFloat.is_nan x = true
    /\ (1 <= pd.isnull_sum_sum frame)%nat.
Proof.
apply (nan_draw_is_missing broken 0).
- apply Nat.ltb_lt. vm_compute. reflexivity.
- left. reflexivity.
Defined.

(** ** The date axis for any range *)

Lemma date_leb_spec (a b : date) :
  date_leb a b = true
  <-> year a < year b
      \/ (year a = year b
          /\ (month a < month b \/ (month a = month b /\ day a <= day b))).
Proof.
destruct a as [y1 m1 d1], b as [y2 m2 d2].
unfold date_leb, date_ltb, date_eqb. cbn [year month day].
rewrite !orb_true_iff, !andb_true_iff, !orb_true_iff, !andb_true_iff,
  !Z.ltb_lt, !Z.eqb_eq.
lia.
Qed.

Lemma date_ltb_spec (a b : date) :
  date_ltb a b = true
  <-> year a < year b
      \/ (year a = year b
          /\ (month a < month b \/ (month a = month b /\ day a < day b))).
Proof.
destruct a as [y1 m1 d1], b as [y2 m2 d2].
unfold date_ltb. cbn [year month day].
rewrite !orb_true_iff, !andb_true_iff, !orb_true_iff, !andb_true_iff,
  !Z.ltb_lt, !Z.eqb_eq.
lia.
Qed.

Lemma date_leb_ordinal_le (a b : date) :
  valid_month a -> valid_month b -> date_leb a b = true ->
  month_ordinal a <= month_ordinal b.
Proof.
unfold valid_month, month_ordinal. rewrite date_leb_spec. lia.
Qed.

Lemma iter_ge_first (cur : date) (i : nat) :
  is_on_offset cur = true -> valid_month cur ->
  date_leb cur (Nat.iter i QuarterBegin_apply cur) = true.
Proof.
intros Hon Hv. destruct i as [|i].
- simpl. apply date_leb_spec. lia.
- pose proof (iter_increasing cur 0 (S i) Hon Hv) as Hlt.
  unfold date_leb. change (Nat.iter 0 QuarterBegin_apply cur) with cur in Hlt.
  rewrite Hlt by lia. reflexivity.
Qed.

(** The quarter start after [cur] is not after any later quarter start. *)
Lemma next_quarter_le (cur d : date) :
  is_on_offset cur = true -> valid_month cur ->
  is_on_offset d = true -> valid_month d ->
  date_leb cur d = true -> cur <> d ->
  date_leb (QuarterBegin_apply cur) d = true.
Proof.
intros Hon Hv Hond Hvd Hle Hne.
destruct (QuarterBegin_apply_on_offset cur Hon Hv) as (-> & _).
destruct (on_offset_inv cur Hon Hv) as [Hd1 Hm1].
destruct (on_offset_inv d Hond Hvd) as [Hd2 Hm2].
apply date_leb_spec in Hle. apply date_leb_spec.
destruct cur as [y1 m1 d1], d as [y2 m2 d2].
unfold add_months. cbn [year month day] in *. subst d1 d2.
assert (Hne' : y1 <> y2 \/ m1 <> m2)
  by (destruct (Z.eq_dec y1 y2), (Z.eq_dec m1 m2); subst; auto;
      exfalso; now apply Hne).
Z.to_euclidean_division_equations. lia.
Qed.

Lemma generate_range_complete (end_ : date) (fuel : nat) :
  forall cur d : date,
    is_on_offset cur = true -> valid_month cur ->
    is_on_offset d = true -> valid_month d ->
    date_leb cur d = true -> date_leb d end_ = true ->
    month_ordinal d - month_ordinal cur < 3 * Z.of_nat fuel ->
    d ∈ generate_range fuel cur end_.
Proof.
induction fuel as [|k IH]; intros cur d Hon Hv Hond Hvd Hle Hend Hlt.
- pose proof (date_leb_ordinal_le cur d Hv Hvd Hle). lia.
- simpl.
  assert (Hce : date_leb cur end_ = true).
  { apply date_leb_spec. apply date_leb_spec in Hle, Hend. lia. }
  rewrite Hce. destruct (date_eqb cur d) eqn:Heq.
  + apply date_eqb_eq in Heq. subst d. apply list_elem_of_here.
  + apply list_elem_of_further.
    assert (Hne : cur <> d).
    { intros ->. assert (date_eqb d d = true) by now apply date_eqb_eq.
      congruence. }
    destruct (QuarterBegin_apply_on_offset cur Hon Hv) as (_ & Hon' & Hv' & _).
    apply IH; try assumption.
    * now apply next_quarter_le.
    * rewrite month_ordinal_apply by assumption. lia.
Qed.

(** [rollforward] gives the first quarter start on or after a date: it
    is a quarter start, it is not before the date, and no quarter start
    lies between the two. *)
Lemma rollforward_first (start : date) :
  valid_month start ->
  is_on_offset (rollforward start) = true
  /\ valid_month (rollforward start)
  /\ date_leb start (rollforward start) = true
  /\ forall d, is_on_offset d = true -> valid_month d ->
       date_leb start d = true -> date_leb (rollforward start) d = true.
Proof.
intros Hv.
destruct (rollforward_on_offset start Hv) as [Hon Hvr].
split; [exact Hon|]. split; [exact Hvr|].
assert (Hcases :
  (is_on_offset start = true /\ rollforward start = start)
  \/ (is_on_offset start = false
      /\ rollforward start = QuarterBegin_apply start)).
{ unfold rollforward. destruct (is_on_offset start); auto. }
destruct Hcases as [[Hs Hr]|[Hs Hr]].
- rewrite Hr. split; [apply date_leb_spec; lia|auto].
- rewrite Hr. clear Hon Hvr Hr.
  destruct start as [y m dd]. unfold valid_month in Hv. cbn [month] in Hv.
  assert (Hday : dd <> 1 \/ (m - 1) mod 3 <> 0).
  { unfold is_on_offset, startingMonth in Hs. cbn [day month] in Hs.
    apply andb_false_iff in Hs. rewrite !Z.eqb_neq in Hs. exact Hs. }
  assert (Hnext :
    QuarterBegin_apply (mkdate y m dd)
    = if (m mod 3 =? 1) && (dd <? 1) then mkdate y m 1
      else if m <=? 9 then mkdate y (3 * ((m - 1) / 3) + 4) 1
           else mkdate (y + 1) 1 1).
  { assert (Hm : m = 1 \/ m = 2 \/ m = 3 \/ m = 4 \/ m = 5 \/ m = 6 \/ m = 7
                 \/ m = 8 \/ m = 9 \/ m = 10 \/ m = 11 \/ m = 12) by lia.
    unfold QuarterBegin_apply, shift_month, startingMonth.
    cbn [year month day].
    repeat (destruct Hm as [-> | Hm]); try subst m;
      destruct (dd <? 1); vm_compute; destruct y; reflexivity. }
  rewrite Hnext. clear Hnext. split.
  + apply date_leb_spec.
    destruct ((m mod 3 =? 1) && (dd <? 1)) eqn:Hb.
    * apply andb_true_iff in Hb as [_ Hb]. apply Z.ltb_lt in Hb.
      cbn [year month day]. lia.
    * destruct (m <=? 9) eqn:Hm9; cbn [year month day].
      -- apply Z.leb_le in Hm9. Z.to_euclidean_division_equations. lia.
      -- lia.
  + intros d Hond Hvd Hle.
    destruct (on_offset_inv d Hond Hvd) as [Hd1 Hdm].
    apply date_leb_spec in Hle. apply date_leb_spec.
    destruct d as [y' m' d']. cbn [year month day] in *. subst d'.
    destruct ((m mod 3 =? 1) && (dd <? 1)) eqn:Hb.
    * apply andb_true_iff in Hb as [Hb1 Hb2].
      apply Z.ltb_lt in Hb2. cbn [year month day]. lia.
    * apply andb_false_iff in Hb.
      rewrite Z.eqb_neq, Z.ltb_ge in Hb.
      destruct (m <=? 9) eqn:Hm9; cbn [year month day].
      -- apply Z.leb_le in Hm9. Z.to_euclidean_division_equations. lia.
      -- apply Z.leb_gt in Hm9. Z.to_euclidean_division_equations. lia.
Qed.

(** X8. For any start and end with calendar months, the generated axis
    consists of exactly the quarter starts that are not before the start
    and not after the end; it is strictly increasing, and each date is
    three months after the one before. *)
Theorem quarterly_axis_any_range (start end_ : date) :
  valid_month start -> valid_month end_ ->
  let axis := date_range_QS start end_ in
  (forall d, d ∈ axis
             <-> is_on_offset d = true /\ valid_month d
                 /\ date_leb start d = true
                 /\ date_leb d end_ = true)
  /\ (forall i j a b, axis !! i = Some a -> axis !! j = Some b ->
        (i < j)%nat -> date_ltb a b = true)
  /\ (forall i a b, axis !! i = Some a -> axis !! S i = Some b ->
        b = add_months 3 a).
Proof.
intros Hs He axis.
destruct (date_range_QS_spaced start end_ Hs) as (H1 & H2 & H3).
destruct (rollforward_first start Hs) as (Hon & Hv & Hge & Hleast).
split; [|split; assumption].
intros d. split.
- intros Hin. apply list_elem_of_lookup in Hin as [i Hi].
  destruct (H1 i d Hi) as (Hd1 & Hd2 & Hd3).
  repeat split; try assumption; try apply Hd2.
  unfold axis, date_range_QS in Hi.
  apply generate_range_lookup in Hi as [-> _].
  pose proof (iter_ge_first (rollforward start) i Hon Hv) as Hfi.
  apply date_leb_spec. apply date_leb_spec in Hge, Hfi. lia.
- intros (Hd1 & Hd2 & Hd3 & Hd4). unfold axis, date_range_QS.
  apply generate_range_complete; try assumption.
  + now apply Hleast.
  + pose proof (date_leb_ordinal_le d end_ Hd2 He Hd4). lia.
Qed.

Lemma quarterly_axis_mid :
  let axis := date_range_QS (mkdate 2007 1 1) (mkdate 2009 12 31) in
  (forall d, d ∈ axis
             <-> is_on_offset d = true /\ valid_month d
                 /\ date_leb (mkdate 2007 1 1) d = true
                 /\ date_leb d (mkdate 2009 12 31) = true)
  /\ (forall i j a b, axis !! i = Some a -> axis !! j = Some b ->
        (i < j)%nat -> date_ltb a b = true)
  /\ (forall i a b, axis !! i = Some a -> axis !! S i = Some b ->
        b = add_months 3 a).
Proof.
apply (quarterly_axis_any_range (mkdate 2007 1 1) (mkdate 2009 12 31));
  vm_compute; split; discriminate.
Defined.

(** X7. A range whose end lies before its first quarter start is empty,
    and the run on it ends in [IndexError] after the generation notice,
    having drawn nothing. *)
Theorem empty_range_run (R : pd.Reductions) (start end_ : date) (w : world) :
  date_leb (rollforward start) end_ = false ->
  date_range_QS start end_ = []
  /\ script_on (date_range_QS start end_) w
     = (mkworld (rng w)
          (stdout w ++ [Text "Generating dummy Quarterly GDP Growth Data..."])
          (figure w) (df w),
        inl IndexError).
Proof.
intros Hle.
assert (Hnil : date_range_QS start end_ = []).
{ unfold date_range_QS. simpl. now rewrite Hle. }
split; [exact Hnil|]. rewrite Hnil.
assert (Habs : pd.to_datetime 2008 1 1 ∉ [] \/ pd.to_datetime 2009 1 1 ∉ []).
{ left. apply not_elem_of_nil. }
destruct (script_on_fail [] w Habs) as [-> _].
rewrite (generator_on_fail [] w Habs). reflexivity.
Qed.

Lemma empty_range_run_backwards :
  date_range_QS (mkdate 2011 1 1) (mkdate 2010 12 31) = []
  /\ @script_on textbook (date_range_QS (mkdate 2011 1 1) (mkdate 2010 12 31))
       steady
     = (mkworld (rng steady)
          (stdout steady
           ++ [Text "Generating dummy Quarterly GDP Growth Data..."])
          (figure steady) (df steady),
        inl IndexError).
Proof.
apply (empty_range_run textbook (mkdate 2011 1 1) (mkdate 2010 12 31) steady).
vm_compute. reflexivity.
Defined.

(** ** The shock lookup on other axes *)

(** X6. On any list of dates, sorted or not and with or without
    repetitions, the lookup [np.where(axis == d)[0][0]] returns [i]
    exactly when [i] is the first position holding [d]. *)
Theorem shock_lookup_first_occurrence (axis : list date) (d : date)
    (i : nat) :
  locate axis d = inr i
  <-> axis !! i = Some d /\ forall j, (j < i)%nat -> axis !! j <> Some d.
Proof.
pose proof (locate_spec axis d) as L. split.
- intros Hi. rewrite Hi in L. exact L.
- intros [Hi Hfirst]. destruct (locate axis d) as [err|i'].
  + destruct L as [_ Hn]. exfalso. apply Hn.
    apply list_elem_of_lookup. eauto.
  + destruct L as [Hi' Hfirst']. f_equal.
    destruct (Nat.lt_trichotomy i' i) as [Hlt|[Heq|Hgt]]; [|exact Heq|].
    * exfalso. exact (Hfirst i' Hlt Hi').
    * exfalso. exact (Hfirst' i Hgt Hi).
Qed.

Lemma axis_next (start end_ : date) (i j : nat) (a b : date) :
  valid_month start ->
  date_range_QS start end_ !! i = Some a ->
  date_range_QS start end_ !! j = Some b ->
  (i < j)%nat ->
  date_range_QS start end_ !! S i = Some (add_months 3 a).
Proof.
intros Hs Ha Hb Hij.
destruct (date_range_QS_spaced start end_ Hs) as (_ & _ & H3).
assert (Hlen : (S i < length (date_range_QS start end_))%nat).
{ apply lookup_lt_Some in Hb. lia. }
destruct (lookup_lt_is_Some_2 _ _ Hlen) as [c Hc].
rewrite Hc. f_equal. exact (H3 i a c Ha Hc).
Qed.

(** X5. Whatever the range constants, when both lookups succeed on the
    generated axis the shock window holds exactly four positions, the
    quarter starts of 2008. *)
Theorem shock_spans_four_quarters (start end_ : date) (s e : nat) :
  valid_month start ->
  shock_period_start (date_range_QS start end_) = inr s ->
  shock_period_end (date_range_QS start end_) = inr e ->
  e = (s + 4)%nat
  /\ window s e (date_range_QS start end_)
     = [mkdate 2008 1 1; mkdate 2008 4 1; mkdate 2008 7 1; mkdate 2008 10 1].
Proof.
intros Hv Hs He. set (axis := date_range_QS start end_) in *.
destruct (date_range_QS_spaced start end_ Hv) as (_ & Hinc & _).
fold axis in Hinc.
pose proof (locate_spec axis (pd.to_datetime 2008 1 1)) as L1.
pose proof (locate_spec axis (pd.to_datetime 2009 1 1)) as L2.
unfold shock_period_start in Hs. unfold shock_period_end in He.
rewrite Hs in L1. rewrite He in L2.
destruct L1 as [A0 _], L2 as [Ae _].
assert (Hstep : forall i a, axis !! i = Some a ->
          date_ltb a (mkdate 2009 1 1) = true ->
          (i < e)%nat /\ axis !! S i = Some (add_months 3 a)).
{ intros i a Ha Hlt.
  assert (Hie : (i < e)%nat).
  { destruct (Nat.lt_trichotomy i e) as [Hl|[Heq|Hg]]; [exact Hl| |].
    - subst i. rewrite Ae in Ha. apply (inj Some) in Ha. subst a.
      rewrite date_ltb_irrefl in Hlt. discriminate.
    - pose proof (Hinc e i _ _ Ae Ha Hg) as Hlt'.
      pose proof (date_ltb_trans _ _ _ Hlt Hlt') as Hirr.
      rewrite date_ltb_irrefl in Hirr. discriminate. }
  split; [exact Hie|]. exact (axis_next start end_ i e a _ Hv Ha Ae Hie). }
destruct (Hstep s _ A0 eq_refl) as [L0 A1].
destruct (Hstep (S s) _ A1 eq_refl) as [L1 A2].
destruct (Hstep (S (S s)) _ A2 eq_refl) as [L2 A3].
destruct (Hstep (S (S (S s))) _ A3 eq_refl) as [L3 A4].
assert (He4 : e = (s + 4)%nat).
{ destruct (Nat.lt_trichotomy e (s + 4)) as [Hl|[Heq|Hg]]; [lia|exact Heq|].
  replace (S (S (S (S s)))) with (s + 4)%nat in A4 by lia.
  pose proof (Hinc (s + 4)%nat e _ _ A4 Ae Hg) as Hirr.
  vm_compute in Hirr. discriminate. }
split; [exact He4|]. subst e. unfold window.
replace (s + 4 - s)%nat with 4%nat by lia.
apply list_eq. intros i.
destruct (decide (i < 4)%nat) as [Hi|Hi].
- rewrite lookup_take_lt, lookup_drop by exact Hi.
  destruct i as [|[|[|[|i]]]]; [| | | |lia].
  + rewrite Nat.add_0_r. exact A0.
  + replace (s + 1)%nat with (S s) by lia. exact A1.
  + replace (s + 2)%nat with (S (S s)) by lia. exact A2.
  + replace (s + 3)%nat with (S (S (S s))) by lia. exact A3.
- rewrite lookup_take_ge by lia. symmetry. apply lookup_ge_None. simpl. lia.
Qed.

Lemma shock_spans_four_quarters_mid :
  8%nat = (4 + 4)%nat
  /\ window 4 8 (date_range_QS (mkdate 2007 1 1) (mkdate 2009 12 31))
     = [mkdate 2008 1 1; mkdate 2008 4 1; mkdate 2008 7 1; mkdate 2008 10 1].
Proof.
apply (shock_spans_four_quarters (mkdate 2007 1 1) (mkdate 2009 12 31) 4 8).
- vm_compute. split; discriminate.
- vm_compute. reflexivity.
- vm_compute. reflexivity.
Defined.

(** ** The reporter and the renderer on other tables *)

(** X13. On a table with no row the reporter and the renderer still end
    normally: the count is 0, the minimum, the maximum and the three
    percentiles are NaN, the missing-value count is 0, and the chart is
    drawn over an empty index. *)
Theorem report_of_empty_table (R : pd.Reductions) (w : world) :
  df w = Some no_rows ->
  reporter w
  = (mkworld (rng w)
       (stdout w
        ++ [Text (nl ++ "--- Descriptive Statistics (GDP Growth Rate) ---");
            Summary (pd.NumericSummary 0 (pd.nanmean []) (pd.nanstd [])
                       PrimFloat.nan PrimFloat.nan PrimFloat.nan
                       PrimFloat.nan PrimFloat.nan);
            Text (nl ++ "Missing values check: 0");
            Text "Index type check: The data is time-series indexed: True"])
       (figure w) (df w),
     inr tt)
  /\ snd (renderer w) = inr tt
  /\ figure (fst (renderer w))
     = figure w ++ chart (pd.DatetimeIndex []) (pd.Float64Col []).
Proof.
intros Hw.
assert (Hcol : pd.getitem no_rows "GDP_Growth_Rate" = inr (pd.Float64Col []))
  by reflexivity.
rewrite (reporter_ok w no_rows _ Hw Hcol).
rewrite (renderer_ok w no_rows _ Hw Hcol).
repeat split.
Qed.

Lemma report_of_empty_table_fresh :
  let w := mkworld (fun _ => 5%float) [] [] (Some no_rows) in
  @reporter textbook w
  = (mkworld (rng w)
       (stdout w
        ++ [Text (nl ++ "--- Descriptive Statistics (GDP Growth Rate) ---");
            Summary (pd.NumericSummary 0 (@pd.nanmean textbook [])
                       (@pd.nanstd textbook [])
                       PrimFloat.nan PrimFloat.nan PrimFloat.nan
                       PrimFloat.nan PrimFloat.nan);
            Text (nl ++ "Missing values check: 0");
            Text "Index type check: The data is time-series indexed: True"])
       (figure w) (df w),
     inr tt)
  /\ snd (renderer w) = inr tt
  /\ figure (fst (renderer w))
     = figure w ++ chart (pd.DatetimeIndex []) (pd.Float64Col []).
Proof.
intros w. apply (report_of_empty_table textbook w). reflexivity.
Defined.

(** X14. On a table that lacks the column [GDP_Growth_Rate] both later
    sections end in [KeyError]: the reporter after printing its heading
    only, the renderer after opening the figure and before plotting; the
    completion notice is not printed. *)
Theorem missing_column_fails (R : pd.Reductions) (w : world)
    (frame : pd.DataFrame) :
  df w = Some frame ->
  pd.lookup_column "GDP_Growth_Rate" (pd.df_columns frame) = None ->
  reporter w
  = (mkworld (rng w)
       (stdout w
        ++ [Text (nl ++ "--- Descriptive Statistics (GDP Growth Rate) ---")])
       (figure w) (df w),
     inl KeyError)
  /\ renderer w
     = (mkworld (rng w) (stdout w)
          (figure w ++ [plt.style_use "seaborn-v0_8-darkgrid"; plt.figure 12 6])
          (df w),
        inl KeyError).
Proof.
intros Hw Hcol.
assert (Hget : pd.getitem frame "GDP_Growth_Rate" = inl KeyError)
  by (unfold pd.getitem; now rewrite Hcol).
split.
- unfold reporter. run_step. rewrite (run_read_df _ _ frame) by exact Hw.
  run_step. rewrite Hget. reflexivity.
- unfold renderer. do 2 run_step.
  rewrite (run_read_df _ _ frame) by exact Hw.
  run_step. rewrite Hget. rewrite <- app_assoc. reflexivity.
Qed.

Lemma missing_column_fails_other :
  let w := mkworld (fun _ => 5%float) [] [] (Some other_column) in
  @reporter textbook w
  = (mkworld (rng w)
       (stdout w
        ++ [Text (nl ++ "--- Descriptive Statistics (GDP Growth Rate) ---")])
       (figure w) (df w),
     inl KeyError)
  /\ renderer w
     = (mkworld (rng w) (stdout w)
          (figure w ++ [plt.style_use "seaborn-v0_8-darkgrid"; plt.figure 12 6])
          (df w),
        inl KeyError).
Proof.
intros w. apply (missing_column_fails textbook w other_column); reflexivity.
Defined.

(** X12. The chart does not depend on the report: on a table with the
    growth column, rendering after the reporter draws the same figure as
    rendering alone, and neither section changes the table or the random
    source. *)
Theorem chart_independent_of_report (R : pd.Reductions) (w : world)
    (frame : pd.DataFrame) (col : pd.column) :
  df w = Some frame ->
  pd.getitem frame "GDP_Growth_Rate" = inr col ->
  let both := (reporter ;; renderer) w in
  snd both = inr tt
  /\ figure (fst both) = figure (fst (renderer w))
  /\ figure (fst both) = figure w ++ chart (pd.df_index frame) col
  /\ df (fst both) = df w
  /\ rng (fst both) = rng w.
Proof.
intros Hw Hcol both. unfold both, mbind, M_bind, bind.
rewrite (reporter_ok w frame col Hw Hcol).
erewrite renderer_ok; [|cbn [df]; exact Hw|exact Hcol].
rewrite (renderer_ok w frame col Hw Hcol).
cbn [fst snd rng stdout figure df]. repeat split.
Qed.

Lemma chart_independent_of_report_one_row :
  let w := mkworld (fun _ => 5%float) [] []
             (Some (one_row (mkdate 2005 1 1) 5%float)) in
  let both := (@reporter textbook ;; renderer) w in
  snd both = inr tt
  /\ figure (fst both) = figure (fst (renderer w))
  /\ figure (fst both)
     = figure w
       ++ chart (pd.df_index (one_row (mkdate 2005 1 1) 5%float))
            (pd.Float64Col [5%float])
  /\ df (fst both) = df w
  /\ rng (fst both) = rng w.
Proof.
intros w.
apply (chart_independent_of_report textbook w
         (one_row (mkdate 2005 1 1) 5%float) (pd.Float64Col [5%float]));
  reflexivity.
Defined.
